(** * index_darshan_logs: classification of Darshan I/O traces

    A shallow embedding of [index_darshan_logs.py]: the mount resolver
    ([_identify_fs_from_path], [MountToFsName.convert]), the aggregators
    ([get_biggest_api], [get_biggest_fs]) and the classifier
    ([classify_darshanlog]), followed by the properties proved about them.

    Conventions.
    - A Python [dict] is an association list in insertion order; the keys of
      an input dict are pairwise distinct, as they are in Python.
    - A Python [int] is a [Z]; a Python [float] is an IEEE binary64 value,
      modelled by [spec_float] with precision 53 and maximal exponent 1024.
    - A function that can raise returns a [result]; the classifier, which
      also emits warnings, runs in the monad [Py]. *)

From Stdlib Require Import String Ascii List ZArith Bool Lia.
From Stdlib Require Import Floats.
Import ListNotations.

Set Warnings "-inexact-float".

Open Scope string_scope.
Open Scope list_scope.
Open Scope Z_scope.

(** ** Exceptions and results *)

Inductive PyError : Type :=
| KeyError (key : string)
| IndexError
| ValueError (msg : string)
| ZeroDivisionError
| OverflowError
| OtherError (msg : string).

Inductive result (A : Type) : Type :=
| Ok (a : A)
| Raise (e : PyError).

Arguments Ok {A} a.
Arguments Raise {A} e.

Definition rbind {A B : Type} (m : result A) (f : A -> result B) : result B :=
  match m with
  | Ok a => f a
  | Raise e => Raise e
  end.

Declare Scope result_scope.
Delimit Scope result_scope with result.
Notation "x <- m ;; k" := (rbind m (fun x => k))
  (at level 61, m at next level, right associativity) : result_scope.
Notation "' pat <- m ;; k" := (rbind m (fun x => match x with pat => k end))
  (at level 61, pat pattern, m at next level, right associativity) : result_scope.

(** [d[key]] on a dict with a fixed set of possible keys, each held in an
    optional field: a missing key raises [KeyError]. *)
Definition getitem {A : Type} (key : string) (field : option A) : result A :=
  match field with
  | Some a => Ok a
  | None => Raise (KeyError key)
  end.

(** ** Dictionaries in insertion order *)

Definition dict (V : Type) : Type := list (string * V).

Definition dict_keys {V : Type} (d : dict V) : list string := map fst d.
Definition dict_values {V : Type} (d : dict V) : list V := map snd d.

Fixpoint dict_get {V : Type} (d : dict V) (k : string) : option V :=
  match d with
  | [] => None
  | (k', v) :: d' => if String.eqb k' k then Some v else dict_get d' k
  end.

(** [d[k] = v]: the value is replaced in place when the key is there and
    appended otherwise. *)
Fixpoint dict_set {V : Type} (d : dict V) (k : string) (v : V) : dict V :=
  match d with
  | [] => [(k, v)]
  | (k', v') :: d' =>
      if String.eqb k' k then (k', v) :: d' else (k', v') :: dict_set d' k v
  end.

(** [d[k] = f(d[k])] for a key that is there; nothing changes otherwise. *)
Fixpoint dict_adjust {V : Type} (f : V -> V) (d : dict V) (k : string) : dict V :=
  match d with
  | [] => []
  | (k', v') :: d' =>
      if String.eqb k' k then (k', f v') :: d' else (k', v') :: dict_adjust f d' k
  end.

Definition dict_mem {V : Type} (d : dict V) (k : string) : bool :=
  match dict_get d k with
  | Some _ => true
  | None => false
  end.

(** [max(iterable, key=...)]: the first element whose key is maximal;
    [ValueError] on an empty iterable. *)
Fixpoint max_by {A : Type} (key : A -> Z) (best : A) (l : list A) : A :=
  match l with
  | [] => best
  | x :: l' => if key x >? key best then max_by key x l' else max_by key best l'
  end.

Definition py_max {A : Type} (key : A -> Z) (l : list A) : result A :=
  match l with
  | [] => Raise (ValueError "max() arg is an empty sequence")
  | x :: l' => Ok (max_by key x l')
  end.

(** ** Strings *)

(** [path.startswith(p)] *)
Definition startswith (path p : string) : bool := String.prefix p path.

Fixpoint has_slash (p : string) : bool :=
  match p with
  | EmptyString => false
  | String c r => Ascii.eqb c "/"%char || has_slash r
  end.

(** [os.path.basename]: what follows the last slash. *)
Fixpoint basename (p : string) : string :=
  match p with
  | EmptyString => EmptyString
  | String c r => if has_slash p then basename r else p
  end.

(** ** Mount resolver, layer 1: longest mount prefix *)

Fixpoint identify_loop (path : string) (mounts : list string)
    (max_match : nat) (matching_mount : option string) : option string :=
  match mounts with
  | [] => matching_mount
  | mount :: rest =>
      if startswith path mount && (max_match <? String.length mount)%nat
      then identify_loop path rest (String.length mount) (Some mount)
      else identify_loop path rest max_match matching_mount
  end.

Definition _identify_fs_from_path (path : string) (mounts : list string)
  : option string :=
  identify_loop path mounts 0%nat None.

(** The key under which [get_biggest_fs] files a path: the mount found, or
    ['_unknown'] when [_identify_fs_from_path] returns [None]. *)
Definition fs_key (path : string) (mounts : list string) : string :=
  match _identify_fs_from_path path mounts with
  | Some key => key
  | None => "_unknown"
  end.

(** ** Mount resolver, layer 2: [MountToFsName] *)

(** A compiled regular expression: its source and what [match] decides on a
    string (a match anchored at the start of the string).  Two compiled
    patterns are the same dict key when their sources are equal. *)
Record Pattern : Type := {
  pattern : string;
  re_match : string -> bool
}.

Record MountToFsName : Type := {
  mount_regex : list (Pattern * string)
}.

Fixpoint regex_set (d : list (Pattern * string)) (p : Pattern) (fsname : string)
  : list (Pattern * string) :=
  match d with
  | [] => [(p, fsname)]
  | (p', v') :: d' =>
      if String.eqb (pattern p') (pattern p)
      then (p', fsname) :: d'
      else (p', v') :: regex_set d' p fsname
  end.

(** The record set the trace reader produces. *)
Record Header : Type := {
  nprocs : option Z;
  start_time : option Z;
  exe : option (list string)
}.

Record CounterBag : Type := {
  BYTES_READ : option Z;
  BYTES_WRITTEN : option Z
}.

(** [counters]: API name -> file path -> record id -> counters. *)
Definition Counters : Type := dict (dict (dict CounterBag)).

Record DarshanLog : Type := {
  counters : option Counters;
  mounts : option (dict string);
  header : option Header;
  log_biggest_read_api : option string;
  log_biggest_write_api : option string
}.

(** What the module takes from outside: the configured rules
    ([tokio.config.CONFIG.get('mount_to_fsname', {})], in iteration order),
    the regular-expression compiler, the date formatting of a timestamp in
    the local time zone, the MD5 digest of a file, and the trace reader. *)
Record Env : Type := {
  mount_to_fsname : list (string * string);
  re_compile : string -> result (string -> bool);
  strftime_date : Z -> result string;
  md5_hexdigest : string -> result string;
  darshan_parser_base : string -> result DarshanLog
}.

Definition compile (env : Env) (rex_str : string) : result Pattern :=
  (m <- re_compile env rex_str ;;
   Ok {| pattern := rex_str; re_match := m |})%result.

(** [re.compile('/project')]: a literal, which matches the strings that
    start with it. *)
Definition project_pattern : Pattern :=
  {| pattern := "/project"; re_match := fun s => startswith s "/project" |}.

Definition MountToFsName_init (env : Env) : result MountToFsName :=
  (regs <- fold_left
             (fun acc item =>
                d <- acc ;;
                p <- compile env (fst item) ;;
                Ok (regex_set d p (snd item)))
             (mount_to_fsname env) (Ok []) ;;
   Ok {| mount_regex := regex_set regs project_pattern "mira-fs1" |})%result.

Fixpoint first_match (rules : list (Pattern * string)) (mount : string)
  : option string :=
  match rules with
  | [] => None
  | (mount_rex, fsname) :: rest =>
      if re_match mount_rex mount then Some fsname else first_match rest mount
  end.

Definition convert (self : MountToFsName) (mount : string) : string :=
  if String.eqb mount "/" then mount
  else match first_match (mount_regex self) mount with
       | Some fsname => fsname
       | None => mount
       end.

(** ** Aggregator: per-API totals *)

(** One entry of [biggest_api]: the keys ['write'], ['read'],
    ['write_files'] and ['read_files']. *)
Record ApiSummary : Type := {
  api_write : Z;
  api_read : Z;
  api_write_files : Z;
  api_read_files : Z
}.

Definition api_zero : ApiSummary :=
  {| api_write := 0; api_read := 0; api_write_files := 0; api_read_files := 0 |}.

(** The dict [get_biggest_api] and [get_biggest_fs] return and
    [classify_darshanlog] reads: every key it can hold, each optional. *)
Record Features : Type := {
  biggest_read_api : option string;
  biggest_read_api_bytes : option Z;
  biggest_read_api_files : option Z;
  biggest_write_api : option string;
  biggest_write_api_bytes : option Z;
  biggest_write_api_files : option Z;
  biggest_read_fs : option string;
  biggest_read_fs_bytes : option Z;
  biggest_write_fs : option string;
  biggest_write_fs_bytes : option Z
}.

(** The empty dict [{}]. *)
Definition no_features : Features :=
  {| biggest_read_api := None; biggest_read_api_bytes := None;
     biggest_read_api_files := None;
     biggest_write_api := None; biggest_write_api_bytes := None;
     biggest_write_api_files := None;
     biggest_read_fs := None; biggest_read_fs_bytes := None;
     biggest_write_fs := None; biggest_write_fs_bytes := None |}.

Definition or_else {A : Type} (new old : option A) : option A :=
  match new with
  | Some a => Some a
  | None => old
  end.

(** [a.update(b)] *)
Definition features_update (a b : Features) : Features :=
  {| biggest_read_api := or_else (biggest_read_api b) (biggest_read_api a);
     biggest_read_api_bytes :=
       or_else (biggest_read_api_bytes b) (biggest_read_api_bytes a);
     biggest_read_api_files :=
       or_else (biggest_read_api_files b) (biggest_read_api_files a);
     biggest_write_api := or_else (biggest_write_api b) (biggest_write_api a);
     biggest_write_api_bytes :=
       or_else (biggest_write_api_bytes b) (biggest_write_api_bytes a);
     biggest_write_api_files :=
       or_else (biggest_write_api_files b) (biggest_write_api_files a);
     biggest_read_fs := or_else (biggest_read_fs b) (biggest_read_fs a);
     biggest_read_fs_bytes :=
       or_else (biggest_read_fs_bytes b) (biggest_read_fs_bytes a);
     biggest_write_fs := or_else (biggest_write_fs b) (biggest_write_fs a);
     biggest_write_fs_bytes :=
       or_else (biggest_write_fs_bytes b) (biggest_write_fs_bytes a) |}.

(** The body of [for record in records.values()]: a counter that is absent
    or zero is skipped. *)
Definition add_record_api (acc : ApiSummary) (record : CounterBag) : ApiSummary :=
  let acc :=
    match BYTES_READ record with
    | Some bytes_read =>
        if bytes_read =? 0 then acc
        else {| api_write := api_write acc;
                api_read := api_read acc + bytes_read;
                api_write_files := api_write_files acc;
                api_read_files := api_read_files acc + 1 |}
    | None => acc
    end in
  match BYTES_WRITTEN record with
  | Some bytes_written =>
      if bytes_written =? 0 then acc
      else {| api_write := api_write acc + bytes_written;
              api_read := api_read acc;
              api_write_files := api_write_files acc + 1;
              api_read_files := api_read_files acc |}
  | None => acc
  end.

(** The body of [for file_path, records in ...items()]. *)
Definition add_file_api (acc : ApiSummary) (item : string * dict CounterBag)
  : ApiSummary :=
  if startswith (fst item) "_" then acc
  else fold_left add_record_api (dict_values (snd item)) acc.

Definition api_totals (files : dict (dict CounterBag)) : ApiSummary :=
  fold_left add_file_api files api_zero.

(** The dict [biggest_api] after the first loop. *)
Definition biggest_api_table (c : Counters) : dict ApiSummary :=
  map (fun item => (fst item, api_totals (snd item))) c.

Definition get_biggest_api (darshan_data : DarshanLog) : result Features :=
  match counters darshan_data with
  | None => Ok no_features
  | Some c =>
      let biggest_api := biggest_api_table c in
      (r <- py_max (fun kv => api_read (snd kv)) biggest_api ;;
       w <- py_max (fun kv => api_write (snd kv)) biggest_api ;;
       Ok {| biggest_read_api := Some (fst r);
             biggest_read_api_bytes := Some (api_read (snd r));
             biggest_read_api_files := Some (api_read_files (snd r));
             biggest_write_api := Some (fst w);
             biggest_write_api_bytes := Some (api_write (snd w));
             biggest_write_api_files := Some (api_write_files (snd w));
             biggest_read_fs := None; biggest_read_fs_bytes := None;
             biggest_write_fs := None; biggest_write_fs_bytes := None |})%result
  end.

(** ** Aggregator: per-filesystem totals *)

(** One entry of [biggest_fs]: the keys ['write'] and ['read']. *)
Record FsSummary : Type := {
  fs_write : Z;
  fs_read : Z
}.

Definition fs_zero : FsSummary := {| fs_write := 0; fs_read := 0 |}.

Definition fs_add_read (b : Z) (s : FsSummary) : FsSummary :=
  {| fs_write := fs_write s; fs_read := fs_read s + b |}.

Definition fs_add_write (b : Z) (s : FsSummary) : FsSummary :=
  {| fs_write := fs_write s + b; fs_read := fs_read s |}.

(** The body of [for record in ...values()], for the key of the file: a
    counter that is absent is skipped, a zero is added. *)
Definition add_record_fs (key : string) (biggest_fs : dict FsSummary)
    (record : CounterBag) : dict FsSummary :=
  let biggest_fs :=
    if dict_mem biggest_fs key then biggest_fs
    else dict_set biggest_fs key fs_zero in
  let biggest_fs :=
    match BYTES_READ record with
    | Some bytes_read => dict_adjust (fs_add_read bytes_read) biggest_fs key
    | None => biggest_fs
    end in
  match BYTES_WRITTEN record with
  | Some bytes_written => dict_adjust (fs_add_write bytes_written) biggest_fs key
  | None => biggest_fs
  end.

(** The rows [get_biggest_fs] skips. *)
Definition is_perf_or_total (file_path : string) : bool :=
  String.eqb file_path "_perf" || String.eqb file_path "_total".

(** The body of [for file_path in darshan_data['counters'][api_name]]. *)
Definition add_file_fs (mounts : list string) (biggest_fs : dict FsSummary)
    (item : string * dict CounterBag) : dict FsSummary :=
  if is_perf_or_total (fst item) then biggest_fs
  else fold_left (add_record_fs (fs_key (fst item) mounts))
         (dict_values (snd item)) biggest_fs.

(** The body of [for api_name in biggest_read_api, biggest_write_api]. *)
Definition add_api_fs (c : Counters) (mounts : list string)
    (acc : result (dict FsSummary)) (api_name : string)
  : result (dict FsSummary) :=
  (biggest_fs <- acc ;;
   files <- getitem api_name (dict_get c api_name) ;;
   Ok (fold_left (add_file_fs mounts) files biggest_fs))%result.

(** The dict [biggest_fs] after the loop over the two dominant APIs. *)
Definition biggest_fs_table (c : Counters) (mounts : list string)
    (biggest_read_api biggest_write_api : string) : result (dict FsSummary) :=
  fold_left (add_api_fs c mounts) [biggest_read_api; biggest_write_api] (Ok []).

(** The two API names [get_biggest_fs] works with: those the data carry,
    or else those [get_biggest_api] finds. *)
Definition dominant_apis (darshan_data : DarshanLog) : result (string * string) :=
  match log_biggest_read_api darshan_data, log_biggest_write_api darshan_data with
  | Some r, Some w => Ok (r, w)
  | _, _ =>
      (biggest_api <- get_biggest_api darshan_data ;;
       r <- getitem "biggest_read_api" (biggest_read_api biggest_api) ;;
       w <- getitem "biggest_write_api" (biggest_write_api biggest_api) ;;
       Ok (r, w))%result
  end.

Definition get_biggest_fs (darshan_data : DarshanLog) : result Features :=
  match counters darshan_data with
  | None => Ok no_features
  | Some c =>
      ('(biggest_read_api, biggest_write_api) <- dominant_apis darshan_data ;;
       m <- getitem "mounts" (mounts darshan_data) ;;
       biggest_fs <- biggest_fs_table c (dict_keys m)
                       biggest_read_api biggest_write_api ;;
       r <- py_max (fun kv => fs_read (snd kv)) biggest_fs ;;
       w <- py_max (fun kv => fs_write (snd kv)) biggest_fs ;;
       Ok {| biggest_read_api := None; biggest_read_api_bytes := None;
             biggest_read_api_files := None;
             biggest_write_api := None; biggest_write_api_bytes := None;
             biggest_write_api_files := None;
             biggest_read_fs := Some (fst r);
             biggest_read_fs_bytes := Some (fs_read (snd r));
             biggest_write_fs := Some (fst w);
             biggest_write_fs_bytes := Some (fs_write (snd w)) |})%result
  end.

(** ** Python floats *)

Definition pyfloat : Type := spec_float.

(** [float(z)] for an int: the nearest binary64 value (ties to even);
    [OverflowError] when the int is too large for a float. *)
Definition float_of_int (z : Z) : result pyfloat :=
  match binary_normalize prec emax z 0 false with
  | S754_infinity _ => Raise OverflowError
  | f => Ok f
  end.

(** [a / b] on floats: [ZeroDivisionError] when [b] is a zero. *)
Definition float_truediv (a b : pyfloat) : result pyfloat :=
  match b with
  | S754_zero _ => Raise ZeroDivisionError
  | _ => Ok (SFdiv prec emax a b)
  end.

Definition float_lt (a b : pyfloat) : bool := SFltb a b.
Definition float_gt (a b : pyfloat) : bool := SFltb b a.
Definition float_eq (a b : pyfloat) : bool := SFeqb a b.

(** The literals [0.90] and [0.10]: the binary64 values nearest to 9/10 and
    to 1/10. *)
Definition float_0_90 : pyfloat := S754_finite false 8106479329266893 (-53).
Definition float_0_10 : pyfloat := S754_finite false 7205759403792794 (-56).

(** ** Classifier *)

Definition FSNAME_TO_SYSTEM : dict string :=
  [ ("mira-fs1", "mira");
    ("scratch1", "edison");
    ("scratch2", "edison");
    ("scratch3", "edison");
    ("cscratch", "cori");
    ("bb-shared", "cori");
    ("bb-private", "cori") ].

(** [d.get(k, default)] *)
Definition dict_get_default {V : Type} (d : dict V) (k : string) (default : V) : V :=
  match dict_get d k with
  | Some v => v
  | None => default
  end.

(** The dict [classify_darshanlog] builds and returns: every key it can
    hold, each optional. *)
Record ClassResult : Type := {
  read_or_write : option string;
  file_system : option string;
  compute_system : option string;
  shared_or_fpp : option string;
  date : option string;
  result_start_time : option Z;
  log_file : option string;
  md5 : option string;
  application : option string
}.

Definition empty_result : ClassResult :=
  {| read_or_write := None; file_system := None; compute_system := None;
     shared_or_fpp := None; date := None; result_start_time := None;
     log_file := None; md5 := None; application := None |}.

Definition set_read_or_write (v : string) (r : ClassResult) : ClassResult :=
  {| read_or_write := Some v; file_system := file_system r;
     compute_system := compute_system r; shared_or_fpp := shared_or_fpp r;
     date := date r; result_start_time := result_start_time r;
     log_file := log_file r; md5 := md5 r; application := application r |}.

Definition set_file_system (v : string) (r : ClassResult) : ClassResult :=
  {| read_or_write := read_or_write r; file_system := Some v;
     compute_system := compute_system r; shared_or_fpp := shared_or_fpp r;
     date := date r; result_start_time := result_start_time r;
     log_file := log_file r; md5 := md5 r; application := application r |}.

Definition set_compute_system (v : string) (r : ClassResult) : ClassResult :=
  {| read_or_write := read_or_write r; file_system := file_system r;
     compute_system := Some v; shared_or_fpp := shared_or_fpp r;
     date := date r; result_start_time := result_start_time r;
     log_file := log_file r; md5 := md5 r; application := application r |}.

Definition set_shared_or_fpp (v : string) (r : ClassResult) : ClassResult :=
  {| read_or_write := read_or_write r; file_system := file_system r;
     compute_system := compute_system r; shared_or_fpp := Some v;
     date := date r; result_start_time := result_start_time r;
     log_file := log_file r; md5 := md5 r; application := application r |}.

Definition set_date (v : string) (r : ClassResult) : ClassResult :=
  {| read_or_write := read_or_write r; file_system := file_system r;
     compute_system := compute_system r; shared_or_fpp := shared_or_fpp r;
     date := Some v; result_start_time := result_start_time r;
     log_file := log_file r; md5 := md5 r; application := application r |}.

Definition set_start_time (v : Z) (r : ClassResult) : ClassResult :=
  {| read_or_write := read_or_write r; file_system := file_system r;
     compute_system := compute_system r; shared_or_fpp := shared_or_fpp r;
     date := date r; result_start_time := Some v;
     log_file := log_file r; md5 := md5 r; application := application r |}.

Definition set_log_file (v : string) (r : ClassResult) : ClassResult :=
  {| read_or_write := read_or_write r; file_system := file_system r;
     compute_system := compute_system r; shared_or_fpp := shared_or_fpp r;
     date := date r; result_start_time := result_start_time r;
     log_file := Some v; md5 := md5 r; application := application r |}.

Definition set_md5 (v : string) (r : ClassResult) : ClassResult :=
  {| read_or_write := read_or_write r; file_system := file_system r;
     compute_system := compute_system r; shared_or_fpp := shared_or_fpp r;
     date := date r; result_start_time := result_start_time r;
     log_file := log_file r; md5 := Some v; application := application r |}.

Definition set_application (v : string) (r : ClassResult) : ClassResult :=
  {| read_or_write := read_or_write r; file_system := file_system r;
     compute_system := compute_system r; shared_or_fpp := shared_or_fpp r;
     date := date r; result_start_time := result_start_time r;
     log_file := log_file r; md5 := md5 r; application := Some v |}.

Definition set_biggest_write_fs (v : string) (f : Features) : Features :=
  {| biggest_read_api := biggest_read_api f;
     biggest_read_api_bytes := biggest_read_api_bytes f;
     biggest_read_api_files := biggest_read_api_files f;
     biggest_write_api := biggest_write_api f;
     biggest_write_api_bytes := biggest_write_api_bytes f;
     biggest_write_api_files := biggest_write_api_files f;
     biggest_read_fs := biggest_read_fs f;
     biggest_read_fs_bytes := biggest_read_fs_bytes f;
     biggest_write_fs := Some v;
     biggest_write_fs_bytes := biggest_write_fs_bytes f |}.

Definition set_biggest_read_fs (v : string) (f : Features) : Features :=
  {| biggest_read_api := biggest_read_api f;
     biggest_read_api_bytes := biggest_read_api_bytes f;
     biggest_read_api_files := biggest_read_api_files f;
     biggest_write_api := biggest_write_api f;
     biggest_write_api_bytes := biggest_write_api_bytes f;
     biggest_write_api_files := biggest_write_api_files f;
     biggest_read_fs := Some v;
     biggest_read_fs_bytes := biggest_read_fs_bytes f;
     biggest_write_fs := biggest_write_fs f;
     biggest_write_fs_bytes := biggest_write_fs_bytes f |}.

(** The features [classify_darshanlog] works from: both aggregations
    merged, the two filesystems passed through [MountToFsName.convert]. *)
Definition converted_features (env : Env) (darshan_log : DarshanLog)
  : result Features :=
  (features <- get_biggest_api darshan_log ;;
   fs_features <- get_biggest_fs darshan_log ;;
   let features := features_update features fs_features in
   converter <- MountToFsName_init env ;;
   write_fs <- getitem "biggest_write_fs" (biggest_write_fs features) ;;
   let features := set_biggest_write_fs (convert converter write_fs) features in
   read_fs <- getitem "biggest_read_fs" (biggest_read_fs features) ;;
   Ok (set_biggest_read_fs (convert converter read_fs) features))%result.

(** "read or write benchmark?": the label, the attributed filesystem and
    [most_files]. *)
Definition read_or_write_step (features : Features)
  : result (string * string * Z) :=
  (r <- getitem "biggest_read_api_bytes" (biggest_read_api_bytes features) ;;
   w <- getitem "biggest_write_api_bytes" (biggest_write_api_bytes features) ;;
   if r >? 10 * w then
     fs <- getitem "biggest_read_fs" (biggest_read_fs features) ;;
     most_files <- getitem "biggest_read_api_files"
                     (biggest_read_api_files features) ;;
     Ok ("read", fs, most_files)
   else if w >? 10 * r then
     fs <- getitem "biggest_write_fs" (biggest_write_fs features) ;;
     most_files <- getitem "biggest_write_api_files"
                     (biggest_write_api_files features) ;;
     Ok ("write", fs, most_files)
   else Ok ("unknown", "unknown", 0))%result.

(** [float(most_files) / float(darshan_log['header']['nprocs'])] *)
Definition files_per_proc (most_files : Z) (darshan_log : DarshanLog)
  : result pyfloat :=
  (a <- float_of_int most_files ;;
   h <- getitem "header" (header darshan_log) ;;
   n <- getitem "nprocs" (nprocs h) ;;
   b <- float_of_int n ;;
   float_truediv a b)%result.

(** "fpp or shared-file?" *)
Definition shared_or_fpp_label (files_per_proc : pyfloat) : string :=
  if float_gt files_per_proc float_0_90 then "fpp"
  else if float_lt files_per_proc float_0_10 then "shared"
  else "unknown".

(** *** The classifier's monad: exceptions and emitted warnings *)

Definition Py (A : Type) : Type := list string -> result A * list string.

Definition ret {A : Type} (a : A) : Py A := fun ws => (Ok a, ws).

Definition bind {A B : Type} (m : Py A) (f : A -> Py B) : Py B :=
  fun ws =>
    match m ws with
    | (Ok a, ws') => f a ws'
    | (Raise e, ws') => (Raise e, ws')
    end.

Definition lift {A : Type} (r : result A) : Py A := fun ws => (r, ws).

(** [warnings.warn(msg)] *)
Definition warn (msg : string) : Py unit := fun ws => (Ok tt, ws ++ [msg]).

(** [try: body except (IndexError, KeyError): handler] *)
Definition try_except {A : Type} (body handler : Py A) : Py A :=
  fun ws =>
    match body ws with
    | (Raise (KeyError _), ws') => handler ws'
    | (Raise IndexError, ws') => handler ws'
    | other => other
    end.

Declare Scope py_scope.
Delimit Scope py_scope with py.
Notation "x <- m ;; k" := (bind m (fun x => k))
  (at level 61, m at next level, right associativity) : py_scope.
Notation "' pat <- m ;; k" := (bind m (fun x => match x with pat => k end))
  (at level 61, pat pattern, m at next level, right associativity) : py_scope.

(** [seq[0]] *)
Definition first_item {A : Type} (l : list A) : result A :=
  match l with
  | [] => Raise IndexError
  | x :: _ => Ok x
  end.

(** "start_time and date of the benchmark run" *)
Definition start_time_step (env : Env) (darshan_log : DarshanLog)
    (result : ClassResult) : Py ClassResult :=
  try_except
    (lift (h <- getitem "header" (header darshan_log) ;;
           ts <- getitem "start_time" (start_time h) ;;
           d <- strftime_date env ts ;;
           Ok (set_start_time ts (set_date d result)))%result)
    (name <- lift (getitem "log_file" (log_file result)) ;;
     _ <- warn (name ++ ": start_time is undecipherable") ;;
     ret result)%py.

(** "name of the binary that generated this log" *)
Definition application_step (darshan_file : string) (darshan_log : DarshanLog)
    (result : ClassResult) : Py ClassResult :=
  try_except
    (lift (h <- getitem "header" (header darshan_log) ;;
           e <- getitem "exe" (exe h) ;;
           path <- first_item e ;;
           Ok (set_application (basename path) result))%result)
    (_ <- warn (basename darshan_file ++ ": exe is undecipherable") ;;
     ret result)%py.

(** [classify_darshanlog] once the trace reader has produced the log. *)
Definition classify_log (env : Env) (darshan_file : string)
    (darshan_log : DarshanLog) : Py ClassResult :=
  (features <- lift (converted_features env darshan_log) ;;
   let result := empty_result in
   '(label, fs, most_files) <- lift (read_or_write_step features) ;;
   let result := set_file_system fs (set_read_or_write label result) in
   let result :=
     set_compute_system (dict_get_default FSNAME_TO_SYSTEM fs "unknown") result in
   fpp <- lift (files_per_proc most_files darshan_log) ;;
   let result := set_shared_or_fpp (shared_or_fpp_label fpp) result in
   result <- start_time_step env darshan_log result ;;
   let result := set_log_file (basename darshan_file) result in
   digest <- lift (md5_hexdigest env darshan_file) ;;
   let result := set_md5 digest result in
   result <- application_step darshan_file darshan_log result ;;
   ret result)%py.

Definition classify_darshanlog (env : Env) (darshan_file : string)
  : Py ClassResult :=
  (darshan_log <- lift (darshan_parser_base env darshan_file) ;;
   classify_log env darshan_file darshan_log)%py.

(** Running a computation from no warnings: what was returned or raised,
    and the warnings emitted. *)
Definition run {A : Type} (m : Py A) : result A * list string := m [].

(** ** Definitions used to state the properties *)

(** The record set without the file rows that [p] selects. *)
Definition drop_files (p : string -> bool) (c : Counters) : Counters :=
  map (fun api =>
         (fst api, filter (fun item => negb (p (fst item))) (snd api))) c.

Definition drop_rows (p : string -> bool) (d : DarshanLog) : DarshanLog :=
  {| counters := option_map (drop_files p) (counters d);
     mounts := mounts d;
     header := header d;
     log_biggest_read_api := log_biggest_read_api d;
     log_biggest_write_api := log_biggest_write_api d |}.

(** A file path that begins with an underscore. *)
Definition is_underscore_row (file_path : string) : bool :=
  startswith file_path "_".

(** Layer 1 as the specification words it: the longest of all the mounts
    that are a prefix of the path, and the sentinel only when no mount is a
    prefix. *)
Definition longest_of_all_mounts (path : string) (mounts : list string) : Prop :=
  match _identify_fs_from_path path mounts with
  | Some m =>
      In m mounts /\ startswith path m = true /\
      forall m', In m' mounts -> startswith path m' = true ->
                 (String.length m' <= String.length m)%nat
  | None => forall m', In m' mounts -> startswith path m' = false
  end.

(** What the loop of [_identify_fs_from_path] keeps: the mount held so far
    is a non-empty prefix of the path, as long as [max_match] says. *)
Definition loop_state (path : string) (max_match : nat)
    (matching_mount : option string) : Prop :=
  match matching_mount with
  | None => max_match = 0%nat
  | Some m =>
      max_match = String.length m /\ (0 < String.length m)%nat /\
      startswith path m = true
  end.

Definition zsum (l : list Z) : Z := fold_right Z.add 0 l.

Definition record_read (record : CounterBag) : Z :=
  match BYTES_READ record with
  | Some b => b
  | None => 0
  end.

Definition record_written (record : CounterBag) : Z :=
  match BYTES_WRITTEN record with
  | Some b => b
  | None => 0
  end.

(** What one file row adds to the filesystem [key]: the sum of a counter
    over its records when the row is a file resolved to [key]. *)
Definition file_bytes (counter : CounterBag -> Z) (mounts : list string)
    (key : string) (item : string * dict CounterBag) : Z :=
  if is_perf_or_total (fst item) then 0
  else if String.eqb (fs_key (fst item) mounts) key
       then zsum (map counter (dict_values (snd item)))
       else 0.

(** The sum over the files of one API, each record counted once. *)
Definition api_bytes (counter : CounterBag -> Z) (c : Counters)
    (mounts : list string) (key api_name : string) : Z :=
  match dict_get c api_name with
  | Some files => zsum (map (file_bytes counter mounts key) files)
  | None => 0
  end.

(** The total of the specification's FsSummary: the files under the
    dominant read API or the dominant write API, each record counted
    once. *)
Definition spec_fs_bytes (counter : CounterBag -> Z) (c : Counters)
    (mounts : list string) (read_api write_api key : string) : Z :=
  api_bytes counter c mounts key read_api +
  (if String.eqb read_api write_api then 0
   else api_bytes counter c mounts key write_api).

(** The total [biggest_fs] holds for a key (0 for a key it does not hold). *)
Definition fs_bytes (field : FsSummary -> Z) (biggest_fs : dict FsSummary)
    (key : string) : Z :=
  match dict_get biggest_fs key with
  | Some s => field s
  | None => 0
  end.

(** Every byte counter of the record set is non-negative. *)
Definition record_nonneg (record : CounterBag) : Prop :=
  0 <= record_read record /\ 0 <= record_written record.

Definition counters_nonneg (c : Counters) : Prop :=
  Forall (fun api =>
            Forall (fun item => Forall record_nonneg (dict_values (snd item)))
                   (snd api)) c.

(** ** Sample data *)

Definition sample_env : Env :=
  {| mount_to_fsname :=
       [("/global/cscratch", "cscratch"); ("/scratch1", "scratch1")];
     re_compile := fun rex_str => Ok (fun s => startswith s rex_str);
     strftime_date := fun _ => Ok "2017-07-14";
     md5_hexdigest := fun _ => Ok "d41d8cd98f00b204e9800998ecf8427e";
     darshan_parser_base := fun _ => Raise (OtherError "not a darshan log") |}.

Definition one_record (bytes_read bytes_written : Z) : dict CounterBag :=
  [("0", {| BYTES_READ := Some bytes_read;
            BYTES_WRITTEN := Some bytes_written |})].

Definition sample_mounts : dict string :=
  [("/", "rootfs"); ("/scratch1", "lustre")].

Definition sample_log (c : Counters) (h : Header) : DarshanLog :=
  {| counters := Some c;
     mounts := Some sample_mounts;
     header := Some h;
     log_biggest_read_api := None;
     log_biggest_write_api := None |}.

(** Four processes, each writing a file of its own. *)
Definition fpp_counters : Counters :=
  [("POSIX", [("/scratch1/a", one_record 0 1000);
              ("/scratch1/b", one_record 0 1000);
              ("/scratch1/c", one_record 0 1000);
              ("/scratch1/d", one_record 0 1000);
              ("_perf", one_record 7 7)])].

(** One file read and written through one API. *)
Definition one_file_counters : Counters :=
  [("POSIX", [("/scratch1/a", one_record 5 7)])].

(** A file row whose path begins with an underscore and is neither
    ['_perf'] nor ['_total']. *)
Definition underscore_counters : Counters :=
  [("POSIX", [("/scratch1/a", one_record 5 0); ("_x", one_record 100 0)])].

Definition header_of (n : option Z) (t : option Z) : Header :=
  {| nprocs := n; start_time := t; exe := Some ["/bin/app"] |}.

(** Features with the given dominant read and write bytes, four files
    touched in each direction. *)
Definition sample_features (r w : Z) : Features :=
  {| biggest_read_api := Some "POSIX";
     biggest_read_api_bytes := Some r;
     biggest_read_api_files := Some 4;
     biggest_write_api := Some "POSIX";
     biggest_write_api_bytes := Some w;
     biggest_write_api_files := Some 4;
     biggest_read_fs := Some "scratch1";
     biggest_read_fs_bytes := Some r;
     biggest_write_fs := Some "scratch1";
     biggest_write_fs_bytes := Some w |}.

(** A header that names no executable. *)
Definition header_without_exe (n : option Z) (t : option Z) : Header :=
  {| nprocs := n; start_time := t; exe := None |}.

(** A record set whose [counters] mapping is empty. *)
Definition empty_counters_log (m : option (dict string)) (h : option Header)
    (r w : option string) : DarshanLog :=
  {| counters := Some [];
     mounts := m;
     header := h;
     log_biggest_read_api := r;
     log_biggest_write_api := w |}.

(** ** Definitions used to state further properties *)

(** [a] is the element [max(l, key=...)] returns: the first of the elements
    of [l] whose key is the largest. *)
Definition is_first_max {A : Type} (key : A -> Z) (l : list A) (a : A) : Prop :=
  exists before after,
    l = before ++ a :: after /\
    (forall x, In x before -> key x < key a) /\
    (forall x, In x after -> key x <= key a).

(** The records [get_biggest_api] looks at under one API: those of the file
    rows whose path does not begin with an underscore. *)
Definition real_records (files : dict (dict CounterBag)) : list CounterBag :=
  flat_map (fun item =>
              if startswith (fst item) "_" then []
              else dict_values (snd item)) files.

(** The number of records on which a counter is not zero. *)
Definition count_nonzero (counter : CounterBag -> Z) (records : list CounterBag)
  : Z :=
  Z.of_nat (List.length (filter (fun r => negb (counter r =? 0)) records)).

(** A record with no bytes read and none written (each counter zero or
    absent). *)
Definition record_idle (record : CounterBag) : Prop :=
  record_read record = 0 /\ record_written record = 0.

Definition counters_idle (c : Counters) : Prop :=
  Forall (fun api =>
            Forall (fun item => Forall record_idle (dict_values (snd item)))
                   (snd api)) c.

(** Every file row is ['_perf'] or ['_total'], or holds no record. *)
Definition only_synthetic_rows (c : Counters) : Prop :=
  Forall (fun api =>
            Forall (fun item =>
                      is_perf_or_total (fst item) = true \/ snd item = [])
                   (snd api)) c.

(** The rules of a converter as a dict from the source of the regular
    expression to the filesystem name. *)
Definition rule_entries (self : MountToFsName) : dict string :=
  map (fun rule => (pattern (fst rule), snd rule)) (mount_regex self).

(** The warning of a missing executable path. *)
Definition exe_warning (darshan_file : string) : string :=
  basename darshan_file ++ ": exe is undecipherable".

(** A computation that only appends to the warnings it is given, and does
    not read them. *)
Definition appends_warnings {A : Type} (m : Py A) : Prop :=
  forall ws, m ws = (fst (m []), ws ++ snd (m [])).

(** ** Command line *)

(** The value of an attribute of the namespace [parse_args] returns. *)
Inductive ArgValue : Type :=
| ArgStrings (l : list string)
| ArgString (s : option string)
| ArgBool (b : bool)
| ArgInt (z : Z).

(** What [parser.parse_args(argv)] parsed for the four arguments the parser
    declares. *)
Record ParsedArgs : Type := {
  parsed_darshanlogs : list string;
  parsed_output : option string;
  parsed_json : bool;
  parsed_threads : Z
}.

(** The namespace: one attribute per [add_argument] call, named after the
    positional argument (['darshanlogs']) or the long option (['--output'],
    ['--json'], ['--threads']). *)
Definition namespace_of (parsed : ParsedArgs) : dict ArgValue :=
  [ ("darshanlogs", ArgStrings (parsed_darshanlogs parsed));
    ("output", ArgString (parsed_output parsed));
    ("json", ArgBool (parsed_json parsed));
    ("threads", ArgInt (parsed_threads parsed)) ].

(** [args.name]: [AttributeError] for a name the namespace does not have. *)
Definition getattr (args : dict ArgValue) (name : string) : result ArgValue :=
  match dict_get args name with
  | Some v => Ok v
  | None =>
      Raise (OtherError
               ("AttributeError: 'Namespace' object has no attribute '"
                ++ name ++ "'"))
  end.

Definition as_strings (v : ArgValue) : result (list string) :=
  match v with
  | ArgStrings l => Ok l
  | _ => Raise (OtherError "TypeError")
  end.

Definition as_string (v : ArgValue) : result (option string) :=
  match v with
  | ArgString s => Ok s
  | _ => Raise (OtherError "TypeError")
  end.

Definition as_bool (v : ArgValue) : result bool :=
  match v with
  | ArgBool b => Ok b
  | _ => Raise (OtherError "TypeError")
  end.

Definition as_int (v : ArgValue) : result Z :=
  match v with
  | ArgInt z => Ok z
  | _ => Raise (OtherError "TypeError")
  end.

(** What [main] has written when it returns. *)
Inductive Output : Type :=
| Print (text : string)
| WriteFile (path : string) (content : string).

(** What [main] takes from outside: the argument parser, [glob.glob], the
    worker pool, the two [json] serializations, and the [pandas] frame
    (indexed by ['log_file'], sorted by ['start_time']) written as CSV with
    the given columns or with all of them. *)
Record Cli : Type := {
  parse_args : list string -> result ParsedArgs;
  glob_glob : string -> list string;
  pool_map : Z -> list string -> Py (list ClassResult);
  json_dumps_indented : list ClassResult -> string;
  json_dumps : list ClassResult -> string;
  to_csv_columns : list ClassResult -> list string -> result string;
  to_csv : list ClassResult -> result string
}.

Fixpoint contains_star (s : string) : bool :=
  match s with
  | EmptyString => false
  | String c r => Ascii.eqb c "*"%char || contains_star r
  end.

(** "If passed literal globs, expand them here." *)
Definition expand_globs (cli : Cli) (logs : list string) : list string :=
  fold_left
    (fun darshan_logs darshan_log =>
       if contains_star darshan_log
       then darshan_logs ++ glob_glob cli darshan_log
       else darshan_logs ++ [darshan_log])
    logs [].

(** "Serial implementation": the loop that classifies one log after the
    other and appends each result. *)
Fixpoint classify_serial_loop (env : Env) (darshan_logs : list string)
    (results : list ClassResult) : Py (list ClassResult) :=
  match darshan_logs with
  | [] => ret results
  | darshan_log :: rest =>
      (result <- classify_darshanlog env darshan_log ;;
       classify_serial_loop env rest (results ++ [result]))%py
  end.

Definition classify_serial (env : Env) (darshan_logs : list string)
  : Py (list ClassResult) :=
  classify_serial_loop env darshan_logs [].

(** [not args.output]: no output file when the option is absent or empty. *)
Definition output_path (output : option string) : option string :=
  match output with
  | Some (String c r) => Some (String c r)
  | _ => None
  end.

Definition column_order : list string :=
  ["date"; "compute_system"; "file_system"; "application"; "shared_or_fpp";
   "read_or_write"; "md5"].

Definition main (cli : Cli) (env : Env) (argv : list string)
  : Py (list Output) :=
  (parsed <- lift (parse_args cli argv) ;;
   let args := namespace_of parsed in
   logs <- lift (rbind (getattr args "darshan_logs") as_strings) ;;
   let darshan_logs := expand_globs cli logs in
   threads <- lift (rbind (getattr args "threads") as_int) ;;
   results <- (if threads =? 1 then classify_serial env darshan_logs
               else pool_map cli threads darshan_logs) ;;
   json <- lift (rbind (getattr args "json") as_bool) ;;
   output <- lift (rbind (getattr args "output") as_string) ;;
   if json then
     match output_path output with
     | None => ret [Print (json_dumps_indented cli results)]
     | Some path =>
         ret [Print ("Writing output to " ++ path);
              WriteFile path (json_dumps cli results)]
     end
   else
     match output_path output with
     | None =>
         csv <- lift (to_csv_columns cli results column_order) ;;
         ret [Print csv]
     | Some path =>
         csv <- lift (to_csv cli results) ;;
         ret [Print ("Writing output to " ++ path); WriteFile path csv]
     end)%py.

(** ** More sample data *)

(** Two APIs, the second with the larger totals. *)
Definition two_api_counters : Counters :=
  [("STDIO", [("<STDOUT>", one_record 0 30)]);
   ("POSIX", [("/scratch1/a", one_record 500 40);
              ("/scratch1/b", one_record 0 60)])].

(** Records that moved no byte. *)
Definition idle_counters : Counters :=
  [("POSIX", [("/scratch1/a", one_record 0 0)]);
   ("STDIO", [("<STDOUT>", [("0", {| BYTES_READ := None;
                                     BYTES_WRITTEN := None |})])])].

(** Only the synthetic rows. *)
Definition synthetic_only_counters : Counters :=
  [("POSIX", [("_perf", one_record 7 7); ("_total", one_record 7 7)])].

(** An environment whose trace reader knows one log. *)
Definition reader_env (known : string) (darshan_log : DarshanLog) : Env :=
  {| mount_to_fsname := mount_to_fsname sample_env;
     re_compile := re_compile sample_env;
     strftime_date := strftime_date sample_env;
     md5_hexdigest := md5_hexdigest sample_env;
     darshan_parser_base :=
       fun darshan_file =>
         if String.eqb darshan_file known then Ok darshan_log
         else Raise (OtherError "not a darshan log") |}.

(** The trace of four processes writing a file each, with a start time, its
    path, and the record its classification returns. *)
Definition sample_trace : DarshanLog :=
  sample_log fpp_counters (header_of (Some 4) (Some 1500000000)).

Definition sample_file : string := "/logs/app.darshan".

Definition sample_result : ClassResult :=
  {| read_or_write := Some "write";
     file_system := Some "scratch1";
     compute_system := Some "edison";
     shared_or_fpp := Some "fpp";
     date := Some "2017-07-14";
     result_start_time := Some 1500000000;
     log_file := Some "app.darshan";
     md5 := Some "d41d8cd98f00b204e9800998ecf8427e";
     application := Some "app" |}.

(** A rule for ['/scratch1'], as [re.compile] gives it for that literal. *)
Definition scratch1_pattern : Pattern :=
  {| pattern := "/scratch1"; re_match := fun s => startswith s "/scratch1" |}.

Definition sample_cli : Cli :=
  {| parse_args :=
       fun argv =>
         Ok {| parsed_darshanlogs := argv; parsed_output := None;
               parsed_json := false; parsed_threads := 1 |};
     glob_glob := fun _ => [];
     pool_map := fun _ _ => lift (Raise (OtherError "no pool"));
     json_dumps_indented := fun _ => "[]";
     json_dumps := fun _ => "[]";
     to_csv_columns := fun _ _ => Ok "";
     to_csv := fun _ => Ok "" |}.

(** * Properties *)

(** ** Mount resolver *)

Section MountResolver.

Variable path : string.

Lemma length_zero_empty (s : string) : String.length s = 0%nat -> s = "".
Proof. destruct s; simpl; [reflexivity | discriminate]. Qed.

(** Two prefixes of one string that have the same length are equal. *)
Lemma startswith_same_length (a b : string) :
  startswith path a = true -> startswith path b = true ->
  String.length a = String.length b -> a = b.
Proof.
  unfold startswith. intros Ha Hb Hlen.
  apply prefix_correct in Ha. apply prefix_correct in Hb.
  rewrite <- Ha, <- Hb, Hlen. reflexivity.
Qed.

Lemma identify_loop_spec (mounts : list string) :
  forall max_match matching_mount,
    loop_state path max_match matching_mount ->
    match identify_loop path mounts max_match matching_mount with
    | None =>
        matching_mount = None /\
        forall m', In m' mounts -> startswith path m' = true ->
                   String.length m' = 0%nat
    | Some m =>
        startswith path m = true /\ (0 < String.length m)%nat /\
        (matching_mount = Some m \/ In m mounts) /\
        (max_match <= String.length m)%nat /\
        forall m', In m' mounts -> startswith path m' = true ->
                   (String.length m' <= String.length m)%nat
    end.
Proof.
  induction mounts as [|mount rest IH]; intros max_match matching_mount Hst.
  - simpl. destruct matching_mount as [m|].
    + destruct Hst as (Hmax & Hpos & Hpre). subst max_match.
      repeat split; auto. intros m' [].
    + split; [reflexivity | intros m' []].
  - simpl.
    destruct (startswith path mount) eqn:Hpre; simpl.
    + destruct (Nat.ltb_spec max_match (String.length mount)) as [Hlt | Hge].
      * specialize (IH (String.length mount) (Some mount)).
        assert (Hst' : loop_state path (String.length mount) (Some mount)).
        { simpl. repeat split; auto. lia. }
        specialize (IH Hst').
        destruct (identify_loop path rest (String.length mount) (Some mount))
          as [m|].
        -- destruct IH as (Hp & Hpos & Hin & Hle & Hall).
           repeat split; auto.
           ++ right. destruct Hin as [Heq | Hin]; [left | right; exact Hin].
              congruence.
           ++ lia.
           ++ intros m' [Hm' | Hm'] Hpm'; [subst m'; exact Hle | auto].
        -- destruct IH as (Habs & _). discriminate.
      * specialize (IH max_match matching_mount Hst).
        destruct (identify_loop path rest max_match matching_mount) as [m|].
        -- destruct IH as (Hp & Hpos & Hin & Hle & Hall).
           repeat split; auto.
           ++ destruct Hin as [Heq | Hin]; [left; exact Heq | right; right; exact Hin].
           ++ intros m' [Hm' | Hm'] Hpm'; [subst m'; lia | auto].
        -- destruct IH as (Hnone & Hall). split; [exact Hnone |].
           intros m' [Hm' | Hm'] Hpm'; [subst m' | auto].
           subst matching_mount. simpl in Hst. lia.
    + specialize (IH max_match matching_mount Hst).
      destruct (identify_loop path rest max_match matching_mount) as [m|].
      * destruct IH as (Hp & Hpos & Hin & Hle & Hall).
        repeat split; auto.
        -- destruct Hin as [Heq | Hin]; [left; exact Heq | right; right; exact Hin].
        -- intros m' [Hm' | Hm'] Hpm'; [subst m'; congruence | auto].
      * destruct IH as (Hnone & Hall). split; [exact Hnone |].
        intros m' [Hm' | Hm'] Hpm'; [subst m'; congruence | auto].
Qed.

End MountResolver.

(** C4 (as amended).  Layer-1 resolution always returns one result.  When it
    is a mount, that mount is in the table, is a non-empty literal prefix of
    the path, is at least as long as every mount that is a prefix of the
    path and is the only such mount of its length; the key is then the
    mount itself.  It is the sentinel, key ['_unknown'], exactly when no
    non-empty mount is a prefix of the path: an empty mount prefix is never
    selected. *)
Theorem identify_fs_longest_nonempty_prefix :
  forall (path : string) (mounts : list string),
    match _identify_fs_from_path path mounts with
    | Some m =>
        In m mounts /\ startswith path m = true /\ m <> "" /\
        (forall m', In m' mounts -> startswith path m' = true ->
                    (String.length m' <= String.length m)%nat) /\
        (forall m', In m' mounts -> startswith path m' = true ->
                    String.length m' = String.length m -> m' = m) /\
        fs_key path mounts = m
    | None =>
        (forall m', In m' mounts -> startswith path m' = true -> m' = "") /\
        fs_key path mounts = "_unknown"
    end.
Proof.
  intros path mounts.
  pose proof (identify_loop_spec path mounts 0%nat None eq_refl) as H.
  unfold fs_key, _identify_fs_from_path in *.
  destruct (identify_loop path mounts 0 None) as [m|].
  - destruct H as (Hp & Hpos & Hin & _ & Hall).
    destruct Hin as [Habs | Hin]; [discriminate |].
    repeat split; auto.
    + intros ->. simpl in Hpos. lia.
    + intros m' _ Hpm' Hlen. eapply startswith_same_length; eauto.
  - destruct H as (_ & Hall). split; [| reflexivity].
    intros m' Hin Hpm'. apply length_zero_empty. auto.
Qed.

(** C4, counterexample.  With the empty string among the mounts, the empty
    mount is a prefix of the path ["/a"] and the longest of the mounts that
    are, yet the resolver returns the sentinel. *)
Lemma empty_mount_prefix_not_selected :
  In "" [""] /\ startswith "/a" "" = true /\
  _identify_fs_from_path "/a" [""] = None /\
  fs_key "/a" [""] = "_unknown" /\
  ~ longest_of_all_mounts "/a" [""].
Proof.
  repeat split; try reflexivity.
  - left. reflexivity.
  - unfold longest_of_all_mounts. simpl. intros H.
    specialize (H "" (or_introl eq_refl)). discriminate.
Qed.

Lemma first_match_some (rules : list (Pattern * string)) (mount fsname : string) :
  first_match rules mount = Some fsname ->
  exists p, In (p, fsname) rules /\ re_match p mount = true.
Proof.
  induction rules as [|[p fs] rest IH]; simpl; [discriminate |].
  destruct (re_match p mount) eqn:Hm.
  - intros [= <-]. exists p. auto.
  - intros H. destruct (IH H) as (q & Hin & Hq). exists q. auto.
Qed.

Lemma first_match_none (rules : list (Pattern * string)) (mount : string) :
  (forall p fsname, In (p, fsname) rules -> re_match p mount = false) ->
  first_match rules mount = None.
Proof.
  induction rules as [|[p fs] rest IH]; simpl; [reflexivity |].
  intros H. rewrite (H p fs (or_introl eq_refl)). apply IH.
  intros q fsname Hin. apply (H q fsname). right. exact Hin.
Qed.

(** C9.  [MountToFsName.convert] returns one string for every mount and
    every rule list: the mount itself or the name of a rule that matches
    it.  The path ["/"] is returned unchanged whatever the rules are, and a
    mount that no rule matches is returned unchanged. *)
Theorem convert_total_root_and_default :
  forall (self : MountToFsName) (mount : string),
    (exists fsname,
        convert self mount = fsname /\
        (fsname = mount \/
         exists p, In (p, fsname) (mount_regex self) /\ re_match p mount = true)) /\
    convert self "/" = "/" /\
    ((forall p fsname, In (p, fsname) (mount_regex self) ->
                       re_match p mount = false) ->
     convert self mount = mount).
Proof.
  intros self mount. split; [| split].
  - exists (convert self mount). split; [reflexivity |].
    unfold convert. destruct (String.eqb mount "/"); [left; reflexivity |].
    destruct (first_match (mount_regex self) mount) as [fsname|] eqn:Hf.
    + right. apply first_match_some. exact Hf.
    + left. reflexivity.
  - reflexivity.
  - intros Hnone. unfold convert.
    destruct (String.eqb mount "/"); [reflexivity |].
    rewrite (first_match_none _ _ Hnone). reflexivity.
Qed.

(** The converter built from the sample configuration: a configured rule,
    the hard-coded ['/project'] rule, the root and a mount no rule matches. *)
Lemma convert_examples :
  exists converter,
    MountToFsName_init sample_env = Ok converter /\
    convert converter "/scratch1" = "scratch1" /\
    convert converter "/projects/data" = "mira-fs1" /\
    convert converter "/" = "/" /\
    convert converter "/home" = "/home" /\
    convert converter "_unknown" = "_unknown".
Proof. eexists. repeat split; reflexivity. Qed.

(** ** Read/write dominance *)

(** The step returns whenever the six keys it may read are there. *)
Lemma read_or_write_step_total (features : Features) (r w rf wf : Z)
    (rfs wfs : string) :
  biggest_read_api_bytes features = Some r ->
  biggest_write_api_bytes features = Some w ->
  biggest_read_api_files features = Some rf ->
  biggest_write_api_files features = Some wf ->
  biggest_read_fs features = Some rfs ->
  biggest_write_fs features = Some wfs ->
  exists out, read_or_write_step features = Ok out.
Proof.
  intros Hr Hw Hrf Hwf Hrfs Hwfs. unfold read_or_write_step.
  rewrite Hr, Hw, Hrf, Hwf, Hrfs, Hwfs. cbn [rbind getitem].
  destruct (r >? 10 * w); [eauto |].
  destruct (w >? 10 * r); eauto.
Qed.

Lemma max_by_in {A : Type} (key : A -> Z) (l : list A) :
  forall best, max_by key best l = best \/ In (max_by key best l) l.
Proof.
  induction l as [|x l IH]; intros best; simpl; [left; reflexivity |].
  destruct (key x >? key best).
  - destruct (IH x) as [-> | H]; auto.
  - destruct (IH best) as [-> | H]; auto.
Qed.

Lemma py_max_in {A : Type} (key : A -> Z) (l : list A) (a : A) :
  py_max key l = Ok a -> In a l.
Proof.
  destruct l as [|x l]; simpl; [discriminate |]. intros [= <-].
  destruct (max_by_in key l x) as [-> | H]; auto.
Qed.

Lemma add_record_api_nonneg (acc : ApiSummary) (record : CounterBag) :
  record_nonneg record ->
  0 <= api_read acc /\ 0 <= api_write acc ->
  0 <= api_read (add_record_api acc record) /\
  0 <= api_write (add_record_api acc record).
Proof.
  unfold record_nonneg, record_read, record_written, add_record_api.
  intros [Hr Hw] [Ha Hb].
  destruct (BYTES_READ record) as [br|], (BYTES_WRITTEN record) as [bw|];
    repeat match goal with
           | |- context [?x =? 0] => destruct (x =? 0)
           end; simpl; lia.
Qed.

Lemma fold_add_record_api_nonneg (records : list CounterBag) :
  forall acc,
    Forall record_nonneg records ->
    0 <= api_read acc /\ 0 <= api_write acc ->
    0 <= api_read (fold_left add_record_api records acc) /\
    0 <= api_write (fold_left add_record_api records acc).
Proof.
  induction records as [|record rest IH]; intros acc Hall Hacc; simpl; [exact Hacc |].
  inversion Hall; subst. apply IH; [assumption |].
  apply add_record_api_nonneg; assumption.
Qed.

Lemma fold_add_file_api_nonneg (files : dict (dict CounterBag)) :
  forall acc,
    Forall (fun item => Forall record_nonneg (dict_values (snd item))) files ->
    0 <= api_read acc /\ 0 <= api_write acc ->
    0 <= api_read (fold_left add_file_api files acc) /\
    0 <= api_write (fold_left add_file_api files acc).
Proof.
  induction files as [|item rest IH]; intros acc Hall Hacc; simpl; [exact Hacc |].
  inversion Hall; subst. apply IH; [assumption |].
  unfold add_file_api. destruct (startswith (fst item) "_"); [exact Hacc |].
  apply fold_add_record_api_nonneg; assumption.
Qed.

Lemma biggest_api_table_nonneg (c : Counters) (kv : string * ApiSummary) :
  counters_nonneg c -> In kv (biggest_api_table c) ->
  0 <= api_read (snd kv) /\ 0 <= api_write (snd kv).
Proof.
  unfold counters_nonneg, biggest_api_table. intros Hall Hin.
  apply in_map_iff in Hin. destruct Hin as (api & <- & Hapi). simpl.
  rewrite Forall_forall in Hall. unfold api_totals.
  apply fold_add_file_api_nonneg; [apply Hall; exact Hapi | simpl; lia].
Qed.

(** The totals [get_biggest_api] reports are non-negative when the byte
    counters of the record set are. *)
Lemma get_biggest_api_nonneg (darshan_data : DarshanLog) (c : Counters)
    (features : Features) (r w : Z) :
  counters darshan_data = Some c -> counters_nonneg c ->
  get_biggest_api darshan_data = Ok features ->
  biggest_read_api_bytes features = Some r ->
  biggest_write_api_bytes features = Some w ->
  0 <= r /\ 0 <= w.
Proof.
  intros Hc Hnn. unfold get_biggest_api. rewrite Hc.
  destruct (py_max (fun kv => api_read (snd kv)) (biggest_api_table c))
    as [rmax|] eqn:Hr; simpl; [| discriminate].
  destruct (py_max (fun kv => api_write (snd kv)) (biggest_api_table c))
    as [wmax|] eqn:Hw; simpl; [| discriminate].
  intros [= <-]. simpl. intros [= <-] [= <-].
  apply py_max_in in Hr. apply py_max_in in Hw.
  split.
  - apply (biggest_api_table_nonneg c rmax Hnn Hr).
  - apply (biggest_api_table_nonneg c wmax Hnn Hw).
Qed.

(** C1.  With R the dominant read-API bytes and W the dominant write-API
    bytes: the label is ['read'] exactly when R > 10 W; it is ['write']
    exactly when W > 10 R and not R > 10 W, which for byte totals (R and W
    non-negative) is exactly when W > 10 R; in every other case the label is
    ['unknown'], the filesystem is the string ['unknown'] and the
    most-files-touched count is 0.  R = 10 W is not ['read'], R = 10 W + 1
    is, and R = W = 0 is ['unknown']. *)
Theorem read_or_write_threshold :
  forall (features : Features) (r w : Z) (label fs : string) (most_files : Z),
    biggest_read_api_bytes features = Some r ->
    biggest_write_api_bytes features = Some w ->
    read_or_write_step features = Ok (label, fs, most_files) ->
    (label = "read" <-> r > 10 * w) /\
    (label = "write" <-> w > 10 * r /\ ~ r > 10 * w) /\
    (0 <= r -> 0 <= w -> (label = "write" <-> w > 10 * r)) /\
    (~ r > 10 * w -> ~ w > 10 * r ->
     label = "unknown" /\ fs = "unknown" /\ most_files = 0) /\
    (label = "unknown" <-> ~ r > 10 * w /\ ~ w > 10 * r) /\
    (r = 10 * w -> label <> "read") /\
    (r = 10 * w + 1 -> label = "read") /\
    (r = 0 -> w = 0 -> label = "unknown").
Proof.
  intros features r w label fs most_files Hr Hw.
  unfold read_or_write_step. rewrite Hr, Hw. cbn [rbind getitem].
  destruct (Z.gtb_spec r (10 * w)) as [Hgt | Hle].
  - destruct (biggest_read_fs features); cbn [rbind getitem]; [| discriminate].
    destruct (biggest_read_api_files features); cbn [rbind getitem];
      [| discriminate].
    intros [= <- <- <-].
    repeat split; intros; try reflexivity; try discriminate; try lia.
  - destruct (Z.gtb_spec w (10 * r)) as [Hgt' | Hle'].
    + destruct (biggest_write_fs features); cbn [rbind getitem]; [| discriminate].
      destruct (biggest_write_api_files features); cbn [rbind getitem];
        [| discriminate].
      intros [= <- <- <-].
      repeat split; intros; try reflexivity; try discriminate; try lia.
    + intros [= <- <- <-].
      repeat split; intros; try reflexivity; try discriminate; try lia.
Qed.

(** ** Access pattern *)

(** The two literals are what the decimal constants denote in binary64,
    and lie within half a unit in the last place of 9/10 and of 1/10. *)
Lemma float_0_90_literal : Prim2SF 0.90%float = float_0_90.
Proof. reflexivity. Qed.

Lemma float_0_10_literal : Prim2SF 0.10%float = float_0_10.
Proof. reflexivity. Qed.

Lemma float_literals_nearest :
  Z.abs (10 * 8106479329266893 - 9 * 2 ^ 53) <= 5 /\
  Z.abs (10 * 7205759403792794 - 1 * 2 ^ 56) <= 5.
Proof. split; vm_compute; discriminate. Qed.

(** A float above 0.90 is not below 0.10. *)
Lemma float_gt_0_90_not_lt_0_10 (x : pyfloat) :
  float_gt x float_0_90 = true -> float_lt x float_0_10 = false.
Proof.
  unfold float_gt, float_lt, float_0_90, float_0_10, SFltb, SFcompare.
  destruct x as [s | s | | s m e]; try destruct s; try reflexivity;
    try discriminate.
  destruct (Z.compare_spec (-53) e) as [He | He | He];
    destruct (Z.compare_spec e (-56)) as [He' | He' | He'];
    try lia; try reflexivity; try discriminate.
Qed.

(** A float equal to a non-zero finite one is that very value. *)
Lemma float_eq_finite (x : pyfloat) (s : bool) (m : positive) (e : Z) :
  float_eq x (S754_finite s m e) = true -> x = S754_finite s m e.
Proof.
  unfold float_eq, SFeqb, SFcompare.
  destruct x as [sx | sx | | sx mx ex]; try (destruct s; discriminate);
    try (destruct sx; destruct s; discriminate).
  destruct sx, s; try discriminate;
    destruct (Z.compare_spec ex e) as [He | He | He]; try discriminate;
    subst ex.
  - destruct (Pos.compare_cont Eq mx m) eqn:Hm; try discriminate.
    apply Pos.compare_eq in Hm. subst. reflexivity.
  - destruct (Pos.compare_cont Eq mx m) eqn:Hm; try discriminate.
    apply Pos.compare_eq in Hm. subst. reflexivity.
Qed.

(** C2.  With filesPerProcess the quotient float(mostFilesTouched) /
    float(nprocs) for a positive nprocs: the label is ['fpp'] exactly when
    it is greater than 0.90, ['shared'] exactly when it is less than 0.10,
    and ['unknown'] otherwise; a quotient equal to 0.90 is not ['fpp'], one
    equal to 0.10 is not ['shared'], and both are ['unknown']. *)
Theorem shared_or_fpp_thresholds :
  forall (most_files : Z) (darshan_log : DarshanLog) (h : Header) (n : Z)
         (x : pyfloat),
    header darshan_log = Some h -> nprocs h = Some n -> 0 < n ->
    files_per_proc most_files darshan_log = Ok x ->
    (shared_or_fpp_label x = "fpp" <-> float_gt x float_0_90 = true) /\
    (shared_or_fpp_label x = "shared" <-> float_lt x float_0_10 = true) /\
    (shared_or_fpp_label x = "unknown" <->
     float_gt x float_0_90 = false /\ float_lt x float_0_10 = false) /\
    (float_eq x float_0_90 = true ->
     shared_or_fpp_label x <> "fpp" /\ shared_or_fpp_label x = "unknown") /\
    (float_eq x float_0_10 = true ->
     shared_or_fpp_label x <> "shared" /\ shared_or_fpp_label x = "unknown").
Proof.
  intros most_files darshan_log h n x _ _ _ _.
  pose proof (float_gt_0_90_not_lt_0_10 x) as Hexcl.
  unfold shared_or_fpp_label.
  repeat split.
  - destruct (float_gt x float_0_90); [reflexivity |].
    destruct (float_lt x float_0_10); discriminate.
  - intros ->. reflexivity.
  - destruct (float_gt x float_0_90); [discriminate |].
    destruct (float_lt x float_0_10); [reflexivity | discriminate].
  - intros Hlt. destruct (float_gt x float_0_90).
    + rewrite Hexcl in Hlt; [discriminate | reflexivity].
    + rewrite Hlt. reflexivity.
  - destruct (float_gt x float_0_90); [discriminate | reflexivity].
  - destruct (float_gt x float_0_90); [discriminate |].
    destruct (float_lt x float_0_10); [discriminate | reflexivity].
  - intros [-> ->]. reflexivity.
  - apply float_eq_finite in H. subst x. discriminate.
  - apply float_eq_finite in H. subst x. reflexivity.
  - apply float_eq_finite in H. subst x. discriminate.
  - apply float_eq_finite in H. subst x. reflexivity.
Qed.

(** The conversion of an int never yields a NaN. *)
Lemma shr_1_nonneg (mrs : shr_record) :
  0 <= shr_m mrs -> 0 <= shr_m (shr_1 mrs).
Proof.
  destruct mrs as [m r s]. simpl.
  destruct m as [|p|p]; [| destruct p | ]; simpl; lia.
Qed.

Lemma iter_pos_shr_1_nonneg (p : positive) :
  forall mrs, 0 <= shr_m mrs -> 0 <= shr_m (iter_pos shr_1 p mrs).
Proof.
  induction p as [p IH | p IH |]; intros mrs H; simpl.
  - apply IH, IH, shr_1_nonneg, H.
  - apply IH, IH, H.
  - apply shr_1_nonneg, H.
Qed.

Lemma shr_fexp_nonneg (m e : Z) (l : location) :
  0 <= m -> 0 <= shr_m (fst (shr_fexp prec emax m e l)).
Proof.
  intros Hm. unfold shr_fexp, shr.
  assert (Hrec : 0 <= shr_m (shr_record_of_loc m l)).
  { destruct l as [|[]]; simpl; exact Hm. }
  destruct (fexp prec emax (Zdigits2 m + e) - e) as [|p|p]; simpl;
    [exact Hrec | | exact Hrec].
  apply iter_pos_shr_1_nonneg, Hrec.
Qed.

Lemma round_nearest_even_nonneg (m : Z) (l : location) :
  0 <= m -> 0 <= round_nearest_even m l.
Proof.
  intros Hm. destruct l as [|[]]; simpl; try lia.
  destruct (Z.even m); lia.
Qed.

Lemma binary_round_aux_not_nan (sx : bool) (mx ex : Z) (lx : location) :
  0 <= mx -> binary_round_aux prec emax sx mx ex lx <> S754_nan.
Proof.
  intros Hm. unfold binary_round_aux.
  pose proof (shr_fexp_nonneg mx ex lx Hm) as H1.
  destruct (shr_fexp prec emax mx ex lx) as [mrs' e']. simpl in H1.
  pose proof (shr_fexp_nonneg
                (round_nearest_even (shr_m mrs') (loc_of_shr_record mrs'))
                e' loc_Exact
                (round_nearest_even_nonneg _ _ H1)) as H2.
  destruct (shr_fexp prec emax
              (round_nearest_even (shr_m mrs') (loc_of_shr_record mrs'))
              e' loc_Exact) as [mrs'' e'']. simpl in H2.
  destruct (shr_m mrs'') as [|p|p]; [discriminate | | lia].
  destruct (e'' <=? emax - prec); discriminate.
Qed.

Lemma float_of_int_not_nan (z : Z) (f : pyfloat) :
  float_of_int z = Ok f -> f <> S754_nan.
Proof.
  unfold float_of_int.
  assert (H : binary_normalize prec emax z 0 false <> S754_nan).
  { unfold binary_normalize, binary_round.
    destruct z as [|p|p]; [discriminate | |].
    - destruct (shl_align p 0 (fexp prec emax (Z.pos (digits2_pos p) + 0)))
        as [mz ez].
      apply binary_round_aux_not_nan. lia.
    - destruct (shl_align p 0 (fexp prec emax (Z.pos (digits2_pos p) + 0)))
        as [mz ez].
      apply binary_round_aux_not_nan. lia. }
  destruct (binary_normalize prec emax z 0 false); try discriminate;
    intros [= <-]; try discriminate. contradiction.
Qed.

Lemma float_of_int_finite (z : Z) (f : pyfloat) :
  float_of_int z = Ok f ->
  (exists s, f = S754_zero s) \/ (exists s m e, f = S754_finite s m e).
Proof.
  intros H. pose proof (float_of_int_not_nan z f H) as Hnan.
  unfold float_of_int in H.
  destruct (binary_normalize prec emax z 0 false) as [s | s | | s m e];
    try discriminate; injection H as <-; eauto. contradiction.
Qed.

(** The conversion of a positive int below 2^53 is exact and finite: the
    mantissa is the int shifted to 53 bits. *)
Lemma digits2_pos_iter_xO (p k : positive) :
  digits2_pos (Pos.iter xO p k) = (digits2_pos p + k)%positive.
Proof.
  induction k as [|k IH] using Pos.peano_ind.
  - simpl. rewrite Pos.add_1_r. reflexivity.
  - rewrite Pos.iter_succ. simpl. rewrite IH, Pos.add_succ_r. reflexivity.
Qed.

Lemma digits2_pos_lower (p : positive) :
  2 ^ (Z.pos (digits2_pos p) - 1) <= Z.pos p.
Proof.
  induction p as [p IH | p IH |]; simpl digits2_pos.
  - rewrite Pos2Z.inj_succ.
    replace (Z.succ (Z.pos (digits2_pos p)) - 1) with
      (Z.succ (Z.pos (digits2_pos p) - 1)) by lia.
    rewrite Z.pow_succ_r by lia. lia.
  - rewrite Pos2Z.inj_succ.
    replace (Z.succ (Z.pos (digits2_pos p)) - 1) with
      (Z.succ (Z.pos (digits2_pos p) - 1)) by lia.
    rewrite Z.pow_succ_r by lia. lia.
  - simpl. lia.
Qed.

Lemma digits2_pos_le_53 (p : positive) :
  Z.pos p < 2 ^ 53 -> Z.pos (digits2_pos p) <= 53.
Proof.
  intros H. pose proof (digits2_pos_lower p) as Hl.
  destruct (Z_le_gt_dec (Z.pos (digits2_pos p)) 53) as [Hle | Hgt];
    [exact Hle |].
  assert (2 ^ 53 <= 2 ^ (Z.pos (digits2_pos p) - 1)).
  { apply Z.pow_le_mono_r; lia. }
  lia.
Qed.

Lemma binary_round_aux_canonical (s : bool) (m : positive) (e : Z) :
  Z.pos (digits2_pos m) = 53 -> -1074 <= e <= 971 ->
  binary_round_aux prec emax s (Z.pos m) e loc_Exact = S754_finite s m e.
Proof.
  intros Hd He.
  assert (Hshift : fexp prec emax (Zdigits2 (Z.pos m) + e) - e = 0).
  { unfold fexp, emin, prec, emax, Zdigits2. rewrite Hd. lia. }
  unfold binary_round_aux, shr_fexp.
  cbn [shr_record_of_loc]. rewrite Hshift.
  cbn [shr shr_m loc_of_shr_record round_nearest_even].
  rewrite Hshift. cbn [shr shr_m shr_record_of_loc].
  replace (e <=? emax - prec) with true; [reflexivity |].
  symmetry. apply Z.leb_le. unfold emax, prec. lia.
Qed.

Lemma float_of_int_pos (p : positive) :
  Z.pos p < 2 ^ 53 ->
  exists m e, float_of_int (Z.pos p) = Ok (S754_finite false m e).
Proof.
  intros Hp. pose proof (digits2_pos_le_53 p Hp) as Hd.
  unfold float_of_int, binary_normalize, binary_round, shl_align.
  assert (Hf : fexp prec emax (Z.pos (digits2_pos p) + 0) - 0 =
               Z.pos (digits2_pos p) - 53).
  { unfold fexp, emin, prec, emax. lia. }
  rewrite Hf.
  destruct (Z.pos (digits2_pos p) - 53) as [|d|d] eqn:Hdiff; try lia.
  - rewrite binary_round_aux_canonical by lia. eauto.
  - rewrite binary_round_aux_canonical.
    + eauto.
    + rewrite digits2_pos_iter_xO. lia.
    + unfold fexp, emin, prec, emax. lia.
Qed.

(** X22.  The quotient is computed, without an exception, for every file
    count and every positive process count below 2^53. *)
Lemma files_per_proc_total (most_files : Z) (darshan_log : DarshanLog)
    (h : Header) (n : Z) :
  header darshan_log = Some h -> nprocs h = Some n ->
  0 <= most_files < 2 ^ 53 -> 0 < n < 2 ^ 53 ->
  exists x, files_per_proc most_files darshan_log = Ok x.
Proof.
  intros Hh Hn Hm Hn'. unfold files_per_proc.
  assert (Ha : exists a, float_of_int most_files = Ok a).
  { destruct most_files as [|p|p]; [eexists; reflexivity | | lia].
    destruct (float_of_int_pos p) as (m & e & ->); [lia | eauto]. }
  destruct Ha as [a ->]. cbn [rbind]. rewrite Hh. cbn [rbind getitem].
  rewrite Hn. cbn [rbind getitem].
  destruct n as [|p|p]; try lia.
  destruct (float_of_int_pos p) as (m & e & ->); [lia |].
  cbn [rbind float_truediv]. eauto.
Qed.

(** Zero files over a positive process count below 2^53 is +0.0. *)
Lemma zero_files_per_proc (darshan_log : DarshanLog) (h : Header) (n : Z) :
  header darshan_log = Some h -> nprocs h = Some n -> 0 < n < 2 ^ 53 ->
  files_per_proc 0 darshan_log = Ok (S754_zero false).
Proof.
  intros Hh Hn Hn'. unfold files_per_proc.
  change (float_of_int 0) with (Ok (S754_zero false)). cbn [rbind].
  rewrite Hh. cbn [rbind getitem]. rewrite Hn. cbn [rbind getitem].
  destruct n as [|p|p]; try lia.
  destruct (float_of_int_pos p) as (m & e & ->); [lia |].
  reflexivity.
Qed.

(** Zero files over any number of processes that can be divided by is a
    zero, which is labelled ['shared']. *)
Lemma zero_files_shared (darshan_log : DarshanLog) (x : pyfloat) :
  files_per_proc 0 darshan_log = Ok x -> shared_or_fpp_label x = "shared".
Proof.
  unfold files_per_proc.
  change (float_of_int 0) with (Ok (S754_zero false)). cbn [rbind].
  destruct (header darshan_log) as [h|]; cbn [rbind getitem]; [| discriminate].
  destruct (nprocs h) as [n|]; cbn [rbind getitem]; [| discriminate].
  destruct (float_of_int n) as [b|] eqn:Hb; cbn [rbind]; [| discriminate].
  destruct (float_of_int_finite n b Hb) as [[s ->] | (s & m & e & ->)].
  - discriminate.
  - simpl. intros [= <-]. destruct s; reflexivity.
Qed.

(** C10.  When the read/write label is ['unknown'], the most-files-touched
    count is 0, and for a positive nprocs every quotient computed from it is
    labelled ['shared'], never ['fpp'] or ['unknown']; for nprocs below 2^53
    the quotient is computed and is +0.0. *)
Theorem unknown_read_write_is_shared :
  forall (features : Features) (label fs : string) (most_files : Z)
         (darshan_log : DarshanLog) (h : Header) (n : Z),
    read_or_write_step features = Ok (label, fs, most_files) ->
    label = "unknown" ->
    header darshan_log = Some h -> nprocs h = Some n -> 0 < n ->
    most_files = 0 /\
    (forall x, files_per_proc most_files darshan_log = Ok x ->
               shared_or_fpp_label x = "shared") /\
    (n < 2 ^ 53 ->
     files_per_proc most_files darshan_log = Ok (S754_zero false)).
Proof.
  intros features label fs most_files darshan_log h n Hstep Hlabel Hh Hn Hpos.
  assert (Hmf : most_files = 0).
  { revert Hstep. unfold read_or_write_step.
    destruct (biggest_read_api_bytes features) as [r|]; cbn [rbind getitem];
      [| discriminate].
    destruct (biggest_write_api_bytes features) as [w|]; cbn [rbind getitem];
      [| discriminate].
    destruct (r >? 10 * w).
    - destruct (biggest_read_fs features); cbn [rbind getitem]; [| discriminate].
      destruct (biggest_read_api_files features); cbn [rbind getitem];
        [| discriminate].
      intros [= <- <- <-]. discriminate.
    - destruct (w >? 10 * r).
      + destruct (biggest_write_fs features); cbn [rbind getitem];
          [| discriminate].
        destruct (biggest_write_api_files features); cbn [rbind getitem];
          [| discriminate].
        intros [= <- <- <-]. discriminate.
      + intros [= <- <- <-]. reflexivity. }
  subst most_files. split; [reflexivity |]. split.
  - intros x Hx. eapply zero_files_shared. exact Hx.
  - intros Hlt. apply (zero_files_per_proc darshan_log h n Hh Hn). lia.
Qed.

(** ** Synthetic rows *)

(** A loop that leaves the accumulator alone on the rows [p] selects gives
    the same result on the list without them. *)
Lemma fold_left_drop {A B : Type} (f : A -> B -> A) (p : B -> bool)
    (l : list B) :
  (forall a x, p x = true -> f a x = a) ->
  forall a, fold_left f (filter (fun x => negb (p x)) l) a = fold_left f l a.
Proof.
  intros Hskip. induction l as [|x l IH]; intros a; simpl; [reflexivity |].
  destruct (p x) eqn:Hp; simpl.
  - rewrite (Hskip a x Hp). apply IH.
  - apply IH.
Qed.

Lemma startswith_perf_or_total (file_path : string) :
  is_perf_or_total file_path = true -> is_underscore_row file_path = true.
Proof.
  unfold is_perf_or_total. intros H. apply orb_true_iff in H.
  destruct H as [H | H]; apply String.eqb_eq in H; subst; reflexivity.
Qed.

(** The per-API table ignores every row [p] selects, when those rows begin
    with an underscore. *)
Lemma biggest_api_table_drop (p : string -> bool) (c : Counters) :
  (forall file_path, p file_path = true -> is_underscore_row file_path = true) ->
  biggest_api_table (drop_files p c) = biggest_api_table c.
Proof.
  intros Hp. unfold biggest_api_table, drop_files. rewrite map_map.
  apply map_ext. intros [api files]. simpl. f_equal.
  unfold api_totals.
  apply (fold_left_drop add_file_api (fun item => p (fst item))).
  intros a item Hitem. unfold add_file_api.
  apply Hp in Hitem. unfold is_underscore_row in Hitem. rewrite Hitem.
  reflexivity.
Qed.

Lemma get_biggest_api_drop (p : string -> bool) (darshan_data : DarshanLog) :
  (forall file_path, p file_path = true -> is_underscore_row file_path = true) ->
  get_biggest_api (drop_rows p darshan_data) = get_biggest_api darshan_data.
Proof.
  intros Hp. unfold get_biggest_api, drop_rows. simpl.
  destruct (counters darshan_data) as [c|]; simpl; [| reflexivity].
  rewrite (biggest_api_table_drop p c Hp). reflexivity.
Qed.

Lemma dict_get_drop_files (p : string -> bool) (c : Counters) (api_name : string) :
  dict_get (drop_files p c) api_name =
  option_map (filter (fun item => negb (p (fst item)))) (dict_get c api_name).
Proof.
  induction c as [|[api files] c IH]; simpl; [reflexivity |].
  destruct (String.eqb api api_name); [reflexivity | exact IH].
Qed.

Lemma add_api_fs_drop (c : Counters) (mounts : list string)
    (acc : result (dict FsSummary)) (api_name : string) :
  add_api_fs (drop_files is_perf_or_total c) mounts acc api_name =
  add_api_fs c mounts acc api_name.
Proof.
  unfold add_api_fs. destruct acc as [biggest_fs|]; cbn [rbind]; [| reflexivity].
  rewrite dict_get_drop_files.
  destruct (dict_get c api_name) as [files|]; cbn [option_map rbind getitem];
    [| reflexivity].
  f_equal.
  apply (fold_left_drop (add_file_fs mounts)
           (fun item => is_perf_or_total (fst item))).
  intros a item Hitem. unfold add_file_fs. rewrite Hitem. reflexivity.
Qed.

Lemma get_biggest_fs_drop (darshan_data : DarshanLog) :
  get_biggest_fs (drop_rows is_perf_or_total darshan_data) =
  get_biggest_fs darshan_data.
Proof.
  unfold get_biggest_fs.
  assert (Hapis : dominant_apis (drop_rows is_perf_or_total darshan_data) =
                  dominant_apis darshan_data).
  { unfold dominant_apis.
    rewrite (get_biggest_api_drop is_perf_or_total darshan_data
               startswith_perf_or_total).
    reflexivity. }
  rewrite Hapis. unfold drop_rows at 1 2. cbn [counters mounts].
  destruct (counters darshan_data) as [c|]; cbn [option_map]; [| reflexivity].
  destruct (dominant_apis darshan_data) as [[r w]|]; cbn [rbind]; [| reflexivity].
  destruct (mounts darshan_data) as [m|]; cbn [rbind getitem]; [| reflexivity].
  unfold biggest_fs_table. cbn [fold_left].
  rewrite !add_api_fs_drop. reflexivity.
Qed.

(** X24.  A file path that begins with an underscore adds nothing to the
    per-API aggregation: [get_biggest_api] returns what it returns on the
    record set without those rows.  The rows ['_perf'] and ['_total'] add
    nothing to the per-filesystem aggregation: [get_biggest_fs] returns
    what it returns on the record set without them, and neither row changes
    [get_biggest_api]. *)
Theorem synthetic_rows_excluded :
  forall (darshan_data : DarshanLog),
    get_biggest_api (drop_rows is_underscore_row darshan_data) =
    get_biggest_api darshan_data /\
    get_biggest_fs (drop_rows is_perf_or_total darshan_data) =
    get_biggest_fs darshan_data /\
    get_biggest_api (drop_rows is_perf_or_total darshan_data) =
    get_biggest_api darshan_data.
Proof.
  intros darshan_data. split; [| split].
  - apply get_biggest_api_drop. auto.
  - apply get_biggest_fs_drop.
  - apply get_biggest_api_drop. exact startswith_perf_or_total.
Qed.

(** C3, at the failing input.  A row ['_x'] under the dominant API begins
    with an underscore.  [get_biggest_api] leaves it out: it reports the 5
    bytes read of the one real file, with or without the row.
    [get_biggest_fs] counts it: with the row the dominant read filesystem
    is ['_unknown'] with 200 bytes, without it ['/scratch1'] with 10. *)
Theorem underscore_row_counted_by_fs :
  is_underscore_row "_x" = true /\
  get_biggest_api (sample_log underscore_counters (header_of (Some 4) None)) =
  Ok {| biggest_read_api := Some "POSIX";
        biggest_read_api_bytes := Some 5;
        biggest_read_api_files := Some 1;
        biggest_write_api := Some "POSIX";
        biggest_write_api_bytes := Some 0;
        biggest_write_api_files := Some 0;
        biggest_read_fs := None; biggest_read_fs_bytes := None;
        biggest_write_fs := None; biggest_write_fs_bytes := None |} /\
  get_biggest_api
    (drop_rows is_underscore_row
       (sample_log underscore_counters (header_of (Some 4) None))) =
  get_biggest_api (sample_log underscore_counters (header_of (Some 4) None)) /\
  get_biggest_fs (sample_log underscore_counters (header_of (Some 4) None)) =
  Ok {| biggest_read_api := None; biggest_read_api_bytes := None;
        biggest_read_api_files := None;
        biggest_write_api := None; biggest_write_api_bytes := None;
        biggest_write_api_files := None;
        biggest_read_fs := Some "_unknown";
        biggest_read_fs_bytes := Some 200;
        biggest_write_fs := Some "/scratch1";
        biggest_write_fs_bytes := Some 0 |} /\
  get_biggest_fs
    (drop_rows is_underscore_row
       (sample_log underscore_counters (header_of (Some 4) None))) =
  Ok {| biggest_read_api := None; biggest_read_api_bytes := None;
        biggest_read_api_files := None;
        biggest_write_api := None; biggest_write_api_bytes := None;
        biggest_write_api_files := None;
        biggest_read_fs := Some "/scratch1";
        biggest_read_fs_bytes := Some 10;
        biggest_write_fs := Some "/scratch1";
        biggest_write_fs_bytes := Some 0 |} /\
  get_biggest_fs
    (drop_rows is_underscore_row
       (sample_log underscore_counters (header_of (Some 4) None))) <>
  get_biggest_fs (sample_log underscore_counters (header_of (Some 4) None)).
Proof.
  repeat (split; [reflexivity |]).
  vm_compute. discriminate.
Qed.

(** ** Per-filesystem totals *)

Lemma dict_get_set {V : Type} (d : dict V) (k k' : string) (v : V) :
  dict_get (dict_set d k v) k' =
  if String.eqb k k' then Some v else dict_get d k'.
Proof.
  induction d as [|[k0 v0] d IH]; simpl.
  - reflexivity.
  - destruct (String.eqb_spec k0 k) as [-> | Hne]; simpl.
    + destruct (String.eqb k k'); reflexivity.
    + rewrite IH. destruct (String.eqb_spec k0 k') as [-> | Hne'].
      * destruct (String.eqb_spec k k'); [congruence | reflexivity].
      * reflexivity.
Qed.

Lemma dict_get_adjust {V : Type} (f : V -> V) (d : dict V) (k k' : string) :
  dict_get (dict_adjust f d k) k' =
  if String.eqb k k' then option_map f (dict_get d k) else dict_get d k'.
Proof.
  induction d as [|[k0 v0] d IH]; simpl.
  - destruct (String.eqb k k'); reflexivity.
  - destruct (String.eqb_spec k0 k) as [-> | Hne]; simpl.
    + destruct (String.eqb k k'); reflexivity.
    + rewrite IH. destruct (String.eqb_spec k0 k') as [-> | Hne'].
      * destruct (String.eqb_spec k k'); [congruence | reflexivity].
      * reflexivity.
Qed.

Lemma add_record_fs_read (k : string) (t : dict FsSummary) (record : CounterBag)
    (key : string) :
  fs_bytes fs_read (add_record_fs k t record) key =
  fs_bytes fs_read t key + (if String.eqb k key then record_read record else 0).
Proof.
  unfold add_record_fs, fs_bytes, dict_mem, record_read.
  destruct (String.eqb k key) eqn:Hk.
  - apply String.eqb_eq in Hk. subst key.
    destruct (dict_get t k) as [s|] eqn:Ht;
      destruct (BYTES_READ record) as [br|];
      destruct (BYTES_WRITTEN record) as [bw|];
      rewrite ?dict_get_adjust, ?dict_get_set, ?String.eqb_refl, ?Ht;
      simpl; lia.
  - destruct (dict_get t k) as [s|] eqn:Ht;
      destruct (BYTES_READ record) as [br|];
      destruct (BYTES_WRITTEN record) as [bw|];
      rewrite ?dict_get_adjust, ?dict_get_set, ?Hk;
      destruct (dict_get t key); simpl; lia.
Qed.

Lemma add_record_fs_write (k : string) (t : dict FsSummary) (record : CounterBag)
    (key : string) :
  fs_bytes fs_write (add_record_fs k t record) key =
  fs_bytes fs_write t key +
  (if String.eqb k key then record_written record else 0).
Proof.
  unfold add_record_fs, fs_bytes, dict_mem, record_written.
  destruct (String.eqb k key) eqn:Hk.
  - apply String.eqb_eq in Hk. subst key.
    destruct (dict_get t k) as [s|] eqn:Ht;
      destruct (BYTES_READ record) as [br|];
      destruct (BYTES_WRITTEN record) as [bw|];
      rewrite ?dict_get_adjust, ?dict_get_set, ?String.eqb_refl, ?Ht;
      simpl; lia.
  - destruct (dict_get t k) as [s|] eqn:Ht;
      destruct (BYTES_READ record) as [br|];
      destruct (BYTES_WRITTEN record) as [bw|];
      rewrite ?dict_get_adjust, ?dict_get_set, ?Hk;
      destruct (dict_get t key); simpl; lia.
Qed.

Section FsTotals.

(** A field of [FsSummary] and the counter the loop adds to it. *)
Variable field : FsSummary -> Z.
Variable counter : CounterBag -> Z.
Hypothesis add_record_fs_field :
  forall k t record key,
    fs_bytes field (add_record_fs k t record) key =
    fs_bytes field t key + (if String.eqb k key then counter record else 0).

Variable mounts : list string.
Variable key : string.

Lemma fold_add_record_fs (k : string) (records : list CounterBag) :
  forall t,
    fs_bytes field (fold_left (add_record_fs k) records t) key =
    fs_bytes field t key +
    (if String.eqb k key then zsum (map counter records) else 0).
Proof.
  induction records as [|record rest IH]; intros t; simpl.
  - destruct (String.eqb k key); lia.
  - rewrite IH, add_record_fs_field. destruct (String.eqb k key); lia.
Qed.

Lemma add_file_fs_bytes (t : dict FsSummary) (item : string * dict CounterBag) :
  fs_bytes field (add_file_fs mounts t item) key =
  fs_bytes field t key + file_bytes counter mounts key item.
Proof.
  unfold add_file_fs, file_bytes.
  destruct (is_perf_or_total (fst item)); [lia |].
  apply fold_add_record_fs.
Qed.

Lemma fold_add_file_fs (files : dict (dict CounterBag)) :
  forall t,
    fs_bytes field (fold_left (add_file_fs mounts) files t) key =
    fs_bytes field t key + zsum (map (file_bytes counter mounts key) files).
Proof.
  induction files as [|item rest IH]; intros t; simpl; [lia |].
  rewrite IH, add_file_fs_bytes. lia.
Qed.

(** What [biggest_fs] holds for a key after the loop over the two APIs:
    the sum over the files of the first plus the sum over the files of the
    second, also when the two are the same API. *)
Lemma biggest_fs_table_bytes (c : Counters) (read_api write_api : string)
    (t : dict FsSummary) :
  biggest_fs_table c mounts read_api write_api = Ok t ->
  fs_bytes field t key =
  api_bytes counter c mounts key read_api +
  api_bytes counter c mounts key write_api.
Proof.
  unfold biggest_fs_table, add_api_fs, api_bytes. cbn [fold_left rbind].
  destruct (dict_get c read_api) as [rfiles|]; cbn [rbind getitem];
    [| discriminate].
  destruct (dict_get c write_api) as [wfiles|]; cbn [rbind getitem];
    [| discriminate].
  intros [= <-]. rewrite !fold_add_file_fs. unfold fs_bytes. simpl. lia.
Qed.

(** With two different dominant APIs the totals are those of the
    specification; with one API dominant in both directions every record is
    counted twice. *)
Lemma biggest_fs_table_vs_spec (c : Counters) (read_api write_api : string)
    (t : dict FsSummary) :
  biggest_fs_table c mounts read_api write_api = Ok t ->
  fs_bytes field t key =
  if String.eqb read_api write_api
  then 2 * spec_fs_bytes counter c mounts read_api write_api key
  else spec_fs_bytes counter c mounts read_api write_api key.
Proof.
  intros H. rewrite (biggest_fs_table_bytes c read_api write_api t H).
  unfold spec_fs_bytes.
  destruct (String.eqb_spec read_api write_api) as [-> | Hne]; lia.
Qed.

End FsTotals.

(** C5, at the failing input.  One file, 5 bytes read and 7 written through
    POSIX, the dominant API in both directions: the totals of the
    specification for ['/scratch1'] are 5 and 7, and [get_biggest_fs] holds
    and reports 10 and 14. *)
Theorem fs_totals_counted_twice :
  get_biggest_api (sample_log one_file_counters (header_of (Some 4) None)) =
  Ok {| biggest_read_api := Some "POSIX"; biggest_read_api_bytes := Some 5;
        biggest_read_api_files := Some 1;
        biggest_write_api := Some "POSIX"; biggest_write_api_bytes := Some 7;
        biggest_write_api_files := Some 1;
        biggest_read_fs := None; biggest_read_fs_bytes := None;
        biggest_write_fs := None; biggest_write_fs_bytes := None |} /\
  spec_fs_bytes record_read one_file_counters (dict_keys sample_mounts)
    "POSIX" "POSIX" "/scratch1" = 5 /\
  spec_fs_bytes record_written one_file_counters (dict_keys sample_mounts)
    "POSIX" "POSIX" "/scratch1" = 7 /\
  biggest_fs_table one_file_counters (dict_keys sample_mounts) "POSIX" "POSIX" =
  Ok [("/scratch1", {| fs_write := 14; fs_read := 10 |})] /\
  get_biggest_fs (sample_log one_file_counters (header_of (Some 4) None)) =
  Ok {| biggest_read_api := None; biggest_read_api_bytes := None;
        biggest_read_api_files := None;
        biggest_write_api := None; biggest_write_api_bytes := None;
        biggest_write_api_files := None;
        biggest_read_fs := Some "/scratch1";
        biggest_read_fs_bytes := Some 10;
        biggest_write_fs := Some "/scratch1";
        biggest_write_fs_bytes := Some 14 |}.
Proof. repeat split; reflexivity. Qed.

(** X21.  For every record set: when one API is dominant for reading and
    for writing, each total [biggest_fs] holds is twice the sum over the
    files of that API, every record being visited twice; when the two APIs
    differ it is the sum over the files of both, each record counted
    once. *)
Lemma fs_totals_twice_when_same_api (c : Counters) (mounts : list string)
    (read_api write_api key : string) (t : dict FsSummary) :
  biggest_fs_table c mounts read_api write_api = Ok t ->
  (read_api = write_api ->
   fs_bytes fs_read t key =
   2 * spec_fs_bytes record_read c mounts read_api write_api key /\
   fs_bytes fs_write t key =
   2 * spec_fs_bytes record_written c mounts read_api write_api key) /\
  (read_api <> write_api ->
   fs_bytes fs_read t key =
   spec_fs_bytes record_read c mounts read_api write_api key /\
   fs_bytes fs_write t key =
   spec_fs_bytes record_written c mounts read_api write_api key).
Proof.
  intros H.
  pose proof (biggest_fs_table_vs_spec fs_read record_read add_record_fs_read
                mounts key c read_api write_api t H) as Hr.
  pose proof (biggest_fs_table_vs_spec fs_write record_written
                add_record_fs_write mounts key c read_api write_api t H) as Hw.
  destruct (String.eqb_spec read_api write_api) as [Heq | Hne];
    split; intros H'; try contradiction; auto.
Qed.

(** ** Empty and absent counters *)

(** Without a [counters] key both aggregations return the empty dict. *)
Lemma absent_counters_empty_result (darshan_data : DarshanLog) :
  counters darshan_data = None ->
  get_biggest_api darshan_data = Ok no_features /\
  get_biggest_fs darshan_data = Ok no_features.
Proof.
  intros H. unfold get_biggest_api, get_biggest_fs. rewrite H. auto.
Qed.

(** C6, at the failing input.  With an empty [counters] mapping
    [get_biggest_api] raises the [ValueError] of [max] on an empty dict, and
    [get_biggest_fs] raises too: neither returns the empty result. *)
Theorem empty_counters_raise :
  forall (m : option (dict string)) (h : option Header) (r w : option string),
    get_biggest_api (empty_counters_log m h r w) =
    Raise (ValueError "max() arg is an empty sequence") /\
    get_biggest_fs (empty_counters_log m h None None) =
    Raise (ValueError "max() arg is an empty sequence") /\
    exists e, get_biggest_fs (empty_counters_log m h r w) = Raise e.
Proof.
  intros m h r w. split; [reflexivity |]. split; [reflexivity |].
  unfold get_biggest_fs, dominant_apis. simpl.
  destruct r as [r|], w as [w|]; simpl; eauto.
  destruct m as [m|]; simpl; eauto.
Qed.

(** ** Header fields *)

(** Up to the access-pattern step the classifier emits no warning: it has
    raised, or it holds the label computed from the features. *)
Lemma classify_log_unfold (env : Env) (darshan_file : string)
    (darshan_log : DarshanLog) :
  run (classify_log env darshan_file darshan_log) =
  match converted_features env darshan_log with
  | Raise e => (Raise e, [])
  | Ok features =>
      match read_or_write_step features with
      | Raise e => (Raise e, [])
      | Ok (label, fs, most_files) =>
          match files_per_proc most_files darshan_log with
          | Raise e => (Raise e, [])
          | Ok fpp =>
              (result <- start_time_step env darshan_log
                           (set_shared_or_fpp (shared_or_fpp_label fpp)
                              (set_compute_system
                                 (dict_get_default FSNAME_TO_SYSTEM fs "unknown")
                                 (set_file_system fs
                                    (set_read_or_write label empty_result)))) ;;
               let result := set_log_file (basename darshan_file) result in
               digest <- lift (md5_hexdigest env darshan_file) ;;
               let result := set_md5 digest result in
               result <- application_step darshan_file darshan_log result ;;
               ret result)%py []
          end
      end
  end.
Proof.
  unfold run, classify_log, bind at 1, lift at 1.
  destruct (converted_features env darshan_log) as [features|e]; [| reflexivity].
  unfold bind at 1, lift at 1.
  destruct (read_or_write_step features) as [[[label fs] most_files]|e];
    [| reflexivity].
  unfold bind at 1, lift at 1.
  destruct (files_per_proc most_files darshan_log) as [fpp|e]; reflexivity.
Qed.

(** [result['log_file']] is not set when the start-time step runs. *)
Lemma start_time_step_missing (env : Env) (darshan_log : DarshanLog)
    (h : Header) (result : ClassResult) (ws : list string) :
  header darshan_log = Some h -> start_time h = None ->
  log_file result = None ->
  start_time_step env darshan_log result ws = (Raise (KeyError "log_file"), ws).
Proof.
  intros Hh Hs Hlf. unfold start_time_step, try_except, lift, bind.
  rewrite Hh. cbn [rbind getitem]. rewrite Hs. cbn [rbind getitem].
  rewrite Hlf. reflexivity.
Qed.

(** C7.  For a trace whose header lacks [start_time], classification
    returns no result record and emits no warning: it raises.  The handler
    of the missing field formats its message with [result['log_file']],
    which is assigned only after the handler has run. *)
Theorem missing_start_time_raises :
  forall (env : Env) (darshan_file : string) (darshan_log : DarshanLog)
         (h : Header),
    header darshan_log = Some h -> start_time h = None ->
    exists e, run (classify_log env darshan_file darshan_log) = (Raise e, []).
Proof.
  intros env darshan_file darshan_log h Hh Hs. rewrite classify_log_unfold.
  destruct (converted_features env darshan_log) as [features|e]; [| eauto].
  destruct (read_or_write_step features) as [[[label fs] most_files]|e];
    [| eauto].
  destruct (files_per_proc most_files darshan_log) as [fpp|e]; [| eauto].
  unfold bind at 1.
  rewrite (start_time_step_missing env darshan_log h) by
    (assumption || reflexivity).
  eauto.
Qed.

(** The failing input of C7 evaluated: the trace of the specification's
    example, whose header has no [start_time], raises
    [KeyError('log_file')]. *)
Lemma missing_start_time_KeyError :
  run (classify_log sample_env "/logs/app.darshan"
         (sample_log fpp_counters (header_of (Some 4) None))) =
  (Raise (KeyError "log_file"), []).
Proof. reflexivity. Qed.

(** The sibling handler, of a missing [exe], takes the name from the path
    of the file: the classification returns, without [application] and with
    a warning. *)
Lemma missing_exe_warns :
  run (classify_log sample_env "/logs/app.darshan"
         (sample_log fpp_counters
            (header_without_exe (Some 4) (Some 1500000000)))) =
  (Ok {| read_or_write := Some "write";
         file_system := Some "scratch1";
         compute_system := Some "edison";
         shared_or_fpp := Some "fpp";
         date := Some "2017-07-14";
         result_start_time := Some 1500000000;
         log_file := Some "app.darshan";
         md5 := Some "d41d8cd98f00b204e9800998ecf8427e";
         application := None |},
   ["app.darshan: exe is undecipherable"]).
Proof. reflexivity. Qed.

(** C8 (as amended).  For a trace whose header has no [nprocs], or whose
    [nprocs] is zero, classification raises and returns no result. *)
Theorem missing_or_zero_nprocs_raises :
  forall (env : Env) (darshan_file : string) (darshan_log : DarshanLog),
    (forall h, header darshan_log = Some h ->
               nprocs h = None \/ nprocs h = Some 0) ->
    exists e, run (classify_log env darshan_file darshan_log) = (Raise e, []).
Proof.
  intros env darshan_file darshan_log Hn. rewrite classify_log_unfold.
  destruct (converted_features env darshan_log) as [features|e]; [| eauto].
  destruct (read_or_write_step features) as [[[label fs] most_files]|e];
    [| eauto].
  assert (Hfpp : exists e, files_per_proc most_files darshan_log = Raise e).
  { unfold files_per_proc.
    destruct (float_of_int most_files) as [a|e]; cbn [rbind]; [| eauto].
    destruct (header darshan_log) as [h|]; cbn [rbind getitem]; [| eauto].
    destruct (Hn h eq_refl) as [Hnone | Hzero].
    - rewrite Hnone. cbn [rbind getitem]. eauto.
    - rewrite Hzero. cbn [rbind getitem].
      change (float_of_int 0) with (Ok (S754_zero false)). cbn [rbind].
      unfold float_truediv. eauto. }
  destruct Hfpp as [e He]. rewrite He. eauto.
Qed.

(** C8, counterexample.  With [nprocs = -4] the classification returns a
    result, labelled ['shared']: four files over minus four processes is
    -1.0, which is below 0.10. *)
Lemma negative_nprocs_classified :
  files_per_proc 4
    (sample_log fpp_counters (header_of (Some (-4)) (Some 1500000000))) =
  Ok (S754_finite true 4503599627370496 (-52)) /\
  run (classify_log sample_env "/logs/app.darshan"
         (sample_log fpp_counters (header_of (Some (-4)) (Some 1500000000)))) =
  (Ok {| read_or_write := Some "write";
         file_system := Some "scratch1";
         compute_system := Some "edison";
         shared_or_fpp := Some "shared";
         date := Some "2017-07-14";
         result_start_time := Some 1500000000;
         log_file := Some "app.darshan";
         md5 := Some "d41d8cd98f00b204e9800998ecf8427e";
         application := Some "app" |},
   []).
Proof. split; reflexivity. Qed.

(** ** The returned record *)

(** The labels survive the start-time step, which returns only with both
    [date] and [start_time] set: its handler never returns. *)
Lemma start_time_step_returns (env : Env) (darshan_log : DarshanLog)
    (result result' : ClassResult) (ws ws' : list string) :
  log_file result = None ->
  start_time_step env darshan_log result ws = (Ok result', ws') ->
  ws' = ws /\
  (exists d ts, result' = set_start_time ts (set_date d result)).
Proof.
  intros Hlf. unfold start_time_step, try_except, lift, bind.
  destruct (header darshan_log) as [h|]; cbn [rbind getitem].
  - destruct (start_time h) as [ts|]; cbn [rbind getitem].
    + destruct (strftime_date env ts) as [d|e]; cbn [rbind].
      * intros [= <- <-]. eauto.
      * destruct e; try discriminate; rewrite Hlf; discriminate.
    + rewrite Hlf. discriminate.
  - rewrite Hlf. discriminate.
Qed.

(** The application step returns the record with at most [application]
    added, and emits at most its own warning. *)
Lemma application_step_returns (darshan_file : string) (darshan_log : DarshanLog)
    (result result' : ClassResult) (ws ws' : list string) :
  application_step darshan_file darshan_log result ws = (Ok result', ws') ->
  (result' = result \/ exists a, result' = set_application a result).
Proof.
  unfold application_step, try_except, lift, bind, warn, ret.
  destruct (header darshan_log) as [h|]; cbn [rbind getitem].
  - destruct (exe h) as [e|]; cbn [rbind getitem].
    + destruct e as [|path rest]; cbn [rbind first_item].
      * intros [= <- <-]. auto.
      * intros [= <- <-]. eauto.
    + intros [= <- <-]. auto.
  - intros [= <- <-]. auto.
Qed.

(** A classification that returns went through every step: the record
    carries the label and filesystem of the read/write step, the system
    looked up for that filesystem and the label of the quotient, and it has
    a [date] and a [start_time]. *)
Lemma classify_log_returns (env : Env) (darshan_file : string)
    (darshan_log : DarshanLog) (result : ClassResult) (ws : list string) :
  run (classify_log env darshan_file darshan_log) = (Ok result, ws) ->
  exists features label fs most_files fpp,
    converted_features env darshan_log = Ok features /\
    read_or_write_step features = Ok (label, fs, most_files) /\
    files_per_proc most_files darshan_log = Ok fpp /\
    read_or_write result = Some label /\
    file_system result = Some fs /\
    compute_system result =
      Some (dict_get_default FSNAME_TO_SYSTEM fs "unknown") /\
    shared_or_fpp result = Some (shared_or_fpp_label fpp) /\
    date result <> None /\ result_start_time result <> None /\
    log_file result = Some (basename darshan_file).
Proof.
  rewrite classify_log_unfold.
  destruct (converted_features env darshan_log) as [features|e] eqn:Hfeat;
    [| discriminate].
  destruct (read_or_write_step features) as [[[label fs] most_files]|e]
    eqn:Hstep; [| discriminate].
  destruct (files_per_proc most_files darshan_log) as [fpp|e] eqn:Hfpp;
    [| discriminate].
  unfold bind at 1.
  destruct (start_time_step env darshan_log _ []) as [[r1|e] ws1] eqn:Hst;
    [| discriminate].
  apply start_time_step_returns in Hst; [| reflexivity].
  destruct Hst as (-> & d & ts & ->).
  unfold bind at 1, lift at 1.
  destruct (md5_hexdigest env darshan_file) as [digest|e]; [| discriminate].
  unfold bind at 1.
  destruct (application_step darshan_file darshan_log _ []) as [[r2|e] ws2]
    eqn:Happ; [| discriminate].
  apply application_step_returns in Happ.
  unfold ret. intros [= <- <-].
  exists features, label, fs, most_files, fpp.
  destruct Happ as [-> | [a ->]]; simpl;
    repeat split; try reflexivity; try assumption; discriminate.
Qed.

(** A returned record labelled ['unknown'] for read/write is labelled
    ['shared'], on the filesystem ['unknown'] of the system ['unknown']. *)
Lemma classified_unknown_is_shared (env : Env) (darshan_file : string)
    (darshan_log : DarshanLog) (result : ClassResult) (ws : list string) :
  run (classify_log env darshan_file darshan_log) = (Ok result, ws) ->
  read_or_write result = Some "unknown" ->
  shared_or_fpp result = Some "shared" /\
  file_system result = Some "unknown" /\
  compute_system result = Some "unknown".
Proof.
  intros Hrun Hlabel.
  destruct (classify_log_returns _ _ _ _ _ Hrun)
    as (features & label & fs & most_files & fpp & _ & Hstep & Hfpp & Hrw
        & Hfs & Hcs & Hsf & _).
  rewrite Hrw in Hlabel. injection Hlabel as ->.
  assert (Hout : fs = "unknown" /\ most_files = 0).
  { revert Hstep. unfold read_or_write_step.
    destruct (biggest_read_api_bytes features) as [r|]; cbn [rbind getitem];
      [| discriminate].
    destruct (biggest_write_api_bytes features) as [w|]; cbn [rbind getitem];
      [| discriminate].
    destruct (r >? 10 * w).
    - destruct (biggest_read_fs features); cbn [rbind getitem]; [| discriminate].
      destruct (biggest_read_api_files features); cbn [rbind getitem];
        discriminate.
    - destruct (w >? 10 * r).
      + destruct (biggest_write_fs features); cbn [rbind getitem];
          [| discriminate].
        destruct (biggest_write_api_files features); cbn [rbind getitem];
          discriminate.
      + intros [= <- <-]. auto. }
  destruct Hout as [-> ->].
  rewrite Hsf, Hfs, Hcs. rewrite (zero_files_shared darshan_log fpp Hfpp).
  auto.
Qed.

(** ** From the aggregations to the labels *)

(** [get_biggest_fs] returns no per-API key. *)
Lemma get_biggest_fs_api_keys (darshan_data : DarshanLog) (f : Features) :
  get_biggest_fs darshan_data = Ok f ->
  biggest_read_api_bytes f = None /\ biggest_write_api_bytes f = None /\
  biggest_read_api_files f = None /\ biggest_write_api_files f = None.
Proof.
  unfold get_biggest_fs.
  destruct (counters darshan_data) as [c|]; [| intros [= <-]; simpl; auto].
  destruct (dominant_apis darshan_data) as [[r w]|]; cbn [rbind];
    [| discriminate].
  destruct (mounts darshan_data) as [m|]; cbn [rbind getitem]; [| discriminate].
  destruct (biggest_fs_table c (dict_keys m) r w) as [t|]; cbn [rbind];
    [| discriminate].
  destruct (py_max (fun kv => fs_read (snd kv)) t); cbn [rbind]; [| discriminate].
  destruct (py_max (fun kv => fs_write (snd kv)) t); cbn [rbind];
    [| discriminate].
  intros [= <-]. simpl. auto.
Qed.

(** The bytes and file counts the classifier compares are those
    [get_biggest_api] returned. *)
Lemma converted_features_api_keys (env : Env) (darshan_log : DarshanLog)
    (features : Features) :
  converted_features env darshan_log = Ok features ->
  exists api_features,
    get_biggest_api darshan_log = Ok api_features /\
    biggest_read_api_bytes features = biggest_read_api_bytes api_features /\
    biggest_write_api_bytes features = biggest_write_api_bytes api_features /\
    biggest_read_api_files features = biggest_read_api_files api_features /\
    biggest_write_api_files features = biggest_write_api_files api_features.
Proof.
  unfold converted_features.
  destruct (get_biggest_api darshan_log) as [f0|]; cbn [rbind]; [| discriminate].
  destruct (get_biggest_fs darshan_log) as [f1|] eqn:Hfs; cbn [rbind];
    [| discriminate].
  destruct (get_biggest_fs_api_keys _ _ Hfs) as (H1 & H2 & H3 & H4).
  destruct (MountToFsName_init env) as [converter|]; cbn [rbind];
    [| discriminate].
  destruct (biggest_write_fs (features_update f0 f1)) as [wfs|];
    cbn [rbind getitem]; [| discriminate].
  destruct (biggest_read_fs (set_biggest_write_fs (convert converter wfs)
                               (features_update f0 f1))) as [rfs|];
    cbn [rbind getitem]; [| discriminate].
  intros [= <-]. exists f0. simpl. rewrite H1, H2, H3, H4. simpl. auto.
Qed.

(** X23.  For a classified trace with non-negative byte counters, the
    dominant bytes R and W that [get_biggest_api] returns are non-negative,
    and the record's label is ['read'] exactly when R > 10 W, ['write']
    exactly when W > 10 R, and ['unknown'] exactly when neither holds. *)
Lemma classified_write_iff (env : Env) (darshan_file : string)
    (darshan_log : DarshanLog) (c : Counters) (result : ClassResult)
    (ws : list string) :
  counters darshan_log = Some c -> counters_nonneg c ->
  run (classify_log env darshan_file darshan_log) = (Ok result, ws) ->
  exists api_features r w,
    get_biggest_api darshan_log = Ok api_features /\
    biggest_read_api_bytes api_features = Some r /\
    biggest_write_api_bytes api_features = Some w /\
    0 <= r /\ 0 <= w /\
    (read_or_write result = Some "read" <-> r > 10 * w) /\
    (read_or_write result = Some "write" <-> w > 10 * r) /\
    (read_or_write result = Some "unknown" <->
     ~ r > 10 * w /\ ~ w > 10 * r).
Proof.
  intros Hc Hnn Hrun.
  destruct (classify_log_returns _ _ _ _ _ Hrun)
    as (features & label & fs & most_files & fpp & Hfeat & Hstep & _ & Hrw & _).
  destruct (converted_features_api_keys _ _ _ Hfeat)
    as (f0 & Hapi & Hr & Hw & _).
  revert Hstep. unfold read_or_write_step. rewrite Hr, Hw.
  destruct (biggest_read_api_bytes f0) as [r|] eqn:Hr0; cbn [rbind getitem];
    [| discriminate].
  destruct (biggest_write_api_bytes f0) as [w|] eqn:Hw0; cbn [rbind getitem];
    [| discriminate].
  destruct (get_biggest_api_nonneg darshan_log c f0 r w Hc Hnn Hapi Hr0 Hw0)
    as [Hrpos Hwpos].
  intros Hstep. exists f0, r, w. rewrite Hrw.
  repeat (split; [solve [auto] |]).
  revert Hstep.
  destruct (Z.gtb_spec r (10 * w)) as [Hgt | Hle].
  - destruct (biggest_read_fs features); cbn [rbind getitem]; [| discriminate].
    destruct (biggest_read_api_files features); cbn [rbind getitem];
      [| discriminate].
    intros [= <- <- <-].
    repeat split; intros; try reflexivity; try discriminate; try lia.
  - destruct (Z.gtb_spec w (10 * r)) as [Hgt' | Hle'].
    + destruct (biggest_write_fs features); cbn [rbind getitem]; [| discriminate].
      destruct (biggest_write_api_files features); cbn [rbind getitem];
        [| discriminate].
      intros [= <- <- <-].
      repeat split; intros; try reflexivity; try discriminate; try lia.
    + intros [= <- <- <-].
      repeat split; intros; try reflexivity; try discriminate; try lia.
Qed.

(** ** Instances *)

(** C1 at the boundary: 1000 bytes read against 100 written is not
    ['read'] but ['unknown'], with filesystem ['unknown'] and no file
    counted. *)
Lemma read_or_write_threshold_witness :
  read_or_write_step (sample_features 1000 100) = Ok ("unknown", "unknown", 0) /\
  "unknown" <> "read" /\
  ("unknown" = "unknown" /\ "unknown" = "unknown" /\ 0 = 0).
Proof.
  pose proof (read_or_write_threshold (sample_features 1000 100) 1000 100
                "unknown" "unknown" 0 eq_refl eq_refl eq_refl) as H.
  destruct H as (_ & _ & _ & Hunknown & _ & Hboundary & _).
  split; [reflexivity |]. split.
  - apply Hboundary. reflexivity.
  - apply Hunknown; lia.
Defined.

(** C2 at the boundaries: nine files over ten processes is the float 0.90
    and one file over ten processes is the float 0.10; both are labelled
    ['unknown']. *)
Lemma shared_or_fpp_thresholds_witness :
  (files_per_proc 9 (sample_log fpp_counters (header_of (Some 10) None)) =
   Ok float_0_90 /\
   shared_or_fpp_label float_0_90 <> "fpp" /\
   shared_or_fpp_label float_0_90 = "unknown") /\
  (files_per_proc 1 (sample_log fpp_counters (header_of (Some 10) None)) =
   Ok float_0_10 /\
   shared_or_fpp_label float_0_10 <> "shared" /\
   shared_or_fpp_label float_0_10 = "unknown").
Proof.
  split.
  - split; [reflexivity |].
    apply (shared_or_fpp_thresholds 9
             (sample_log fpp_counters (header_of (Some 10) None))
             (header_of (Some 10) None) 10 float_0_90
             eq_refl eq_refl ltac:(lia) eq_refl).
    reflexivity.
  - split; [reflexivity |].
    apply (shared_or_fpp_thresholds 1
             (sample_log fpp_counters (header_of (Some 10) None))
             (header_of (Some 10) None) 10 float_0_10
             eq_refl eq_refl ltac:(lia) eq_refl).
    reflexivity.
Defined.

(** C10 on a run that reads and writes 500 bytes with four processes. *)
Lemma unknown_read_write_is_shared_witness :
  read_or_write_step (sample_features 500 500) = Ok ("unknown", "unknown", 0) /\
  files_per_proc 0 (sample_log fpp_counters (header_of (Some 4) None)) =
  Ok (S754_zero false) /\
  shared_or_fpp_label (S754_zero false) = "shared".
Proof.
  split; [reflexivity |]. split; [reflexivity |].
  apply (unknown_read_write_is_shared (sample_features 500 500)
           "unknown" "unknown" 0
           (sample_log fpp_counters (header_of (Some 4) None))
           (header_of (Some 4) None) 4
           eq_refl eq_refl eq_refl eq_refl ltac:(lia)).
  reflexivity.
Defined.

(** C7 on the trace of the specification's example. *)
Lemma missing_start_time_raises_witness :
  exists e,
    run (classify_log sample_env "/logs/app.darshan"
           (sample_log fpp_counters (header_of (Some 4) None))) =
    (Raise e, []).
Proof.
  apply (missing_start_time_raises sample_env "/logs/app.darshan"
           (sample_log fpp_counters (header_of (Some 4) None))
           (header_of (Some 4) None) eq_refl eq_refl).
Defined.

(** C8 on a trace whose header says [nprocs = 0]. *)
Lemma missing_or_zero_nprocs_raises_witness :
  exists e,
    run (classify_log sample_env "/logs/app.darshan"
           (sample_log fpp_counters (header_of (Some 0) (Some 1500000000)))) =
    (Raise e, []).
Proof.
  apply (missing_or_zero_nprocs_raises sample_env "/logs/app.darshan"
           (sample_log fpp_counters (header_of (Some 0) (Some 1500000000)))).
  intros h [= <-]. right. reflexivity.
Defined.

(** The same trace evaluated: the division raises [ZeroDivisionError]. *)
Lemma zero_nprocs_ZeroDivisionError :
  run (classify_log sample_env "/logs/app.darshan"
         (sample_log fpp_counters (header_of (Some 0) (Some 1500000000)))) =
  (Raise ZeroDivisionError, []) /\
  run (classify_log sample_env "/logs/app.darshan"
         (sample_log fpp_counters (header_of None (Some 1500000000)))) =
  (Raise (KeyError "nprocs"), []).
Proof. split; reflexivity. Qed.

(** * Further properties *)

(** ** Mount resolver *)




(** The mount [_identify_fs_from_path] returns is characterised by being a
    non-empty mount, a prefix of the path, and no shorter than any mount
    that is a prefix of the path. *)
Lemma identify_fs_some_iff (path : string) (mounts : list string) (m : string) :
  _identify_fs_from_path path mounts = Some m <->
  In m mounts /\ startswith path m = true /\ m <> "" /\
  forall m', In m' mounts -> startswith path m' = true ->
             (String.length m' <= String.length m)%nat.
Proof.
  pose proof (identify_loop_spec path mounts 0%nat None eq_refl) as H.
  unfold _identify_fs_from_path. split.
  - intros E. rewrite E in H. destruct H as (Hp & Hpos & Hin & _ & Hall).
    destruct Hin as [Habs | Hin]; [discriminate |].
    repeat split; auto. intros ->. simpl in Hpos. lia.
  - intros (Hin & Hp & Hne & Hall).
    destruct (identify_loop path mounts 0 None) as [m0|].
    + destruct H as (Hp0 & Hpos0 & Hin0 & _ & Hall0).
      destruct Hin0 as [Habs | Hin0]; [discriminate |].
      f_equal. apply (startswith_same_length path); auto.
      apply Nat.le_antisymm; auto.
    + destruct H as (_ & Hall0). exfalso. apply Hne.
      apply length_zero_empty. auto.
Qed.

(** X1.  The mount found for a path depends on the set of mounts only, not
    on the order in which the mount table lists them. *)
Theorem identify_fs_order_independent :
  forall (path : string) (mounts mounts' : list string),
    (forall m, In m mounts <-> In m mounts') ->
    _identify_fs_from_path path mounts = _identify_fs_from_path path mounts' /\
    fs_key path mounts = fs_key path mounts'.
Proof.
  intros path mounts mounts' Hsame.
  assert (H : _identify_fs_from_path path mounts =
              _identify_fs_from_path path mounts').
  { destruct (_identify_fs_from_path path mounts) as [m|] eqn:E.
    - symmetry. apply identify_fs_some_iff.
      apply identify_fs_some_iff in E. destruct E as (Hin & Hp & Hne & Hall).
      repeat split; auto.
      + apply Hsame. exact Hin.
      + intros m' Hin'. apply Hall. apply Hsame. exact Hin'.
    - destruct (_identify_fs_from_path path mounts') as [m'|] eqn:E';
        [| reflexivity].
      apply identify_fs_some_iff in E'. destruct E' as (Hin & Hp & Hne & Hall).
      rewrite <- E. apply identify_fs_some_iff.
      repeat split; auto.
      + apply Hsame. exact Hin.
      + intros m0 Hin0. apply Hall. apply Hsame. exact Hin0. }
  split; [exact H |]. unfold fs_key. rewrite H. reflexivity.
Qed.


(** ** [MountToFsName] *)

(** X3.  The rules are tried in order and the first that matches wins: the
    rules after it are not consulted, whatever they match. *)
Theorem convert_first_match_wins :
  forall (self : MountToFsName) (before after : list (Pattern * string))
         (p : Pattern) (fsname mount : string),
    mount_regex self = before ++ (p, fsname) :: after ->
    (forall q name, In (q, name) before -> re_match q mount = false) ->
    re_match p mount = true ->
    mount <> "/" ->
    convert self mount = fsname.
Proof.
  intros self before after p fsname mount Hrules Hbefore Hp Hroot.
  unfold convert. destruct (String.eqb_spec mount "/") as [-> | _];
    [contradiction |].
  rewrite Hrules. clear Hrules.
  induction before as [|[q name] before IH]; simpl.
  - rewrite Hp. reflexivity.
  - rewrite (Hbefore q name (or_introl eq_refl)). apply IH.
    intros q' name' Hin. apply (Hbefore q' name'). right. exact Hin.
Qed.

(** The loop of [__init__] over the configured rules. *)
Lemma init_loop_raise (env : Env) (config : list (string * string))
    (e : PyError) :
  fold_left
    (fun acc item =>
       (d <- acc ;;
        p <- compile env (fst item) ;;
        Ok (regex_set d p (snd item)))%result)
    config (Raise e) = Raise e.
Proof. induction config as [|item config IH]; simpl; auto. Qed.

Lemma init_loop_ok_iff (env : Env) (config : list (string * string)) :
  forall d,
    (exists regs,
        fold_left
          (fun acc item =>
             (d <- acc ;;
              p <- compile env (fst item) ;;
              Ok (regex_set d p (snd item)))%result)
          config (Ok d) = Ok regs) <->
    (forall item, In item config ->
                  exists m, re_compile env (fst item) = Ok m).
Proof.
  induction config as [|item config IH]; intros d; simpl.
  - split; [intros _ item [] | eauto].
  - unfold compile at 2.
    destruct (re_compile env (fst item)) as [m|e] eqn:Hc; cbn [rbind].
    + rewrite IH. split.
      * intros H it [<- | Hin]; eauto.
      * intros H it Hin. apply H. right. exact Hin.
    + rewrite init_loop_raise. split.
      * intros [regs Habs]. discriminate.
      * intros H. destruct (H item (or_introl eq_refl)) as [m Hm].
        rewrite Hc in Hm. discriminate.
Qed.

(** X4.  A converter is built exactly when every configured regular
    expression compiles; one that does not makes [MountToFsName()], and
    with it every classification, raise. *)
Theorem MountToFsName_init_ok_iff :
  forall (env : Env),
    ((exists converter, MountToFsName_init env = Ok converter) <->
     (forall rex_str fsname, In (rex_str, fsname) (mount_to_fsname env) ->
                             exists m, re_compile env rex_str = Ok m)) /\
    (forall darshan_file darshan_log e,
        MountToFsName_init env = Raise e ->
        exists e', run (classify_log env darshan_file darshan_log) =
                   (Raise e', [])).
Proof.
  intros env. split.
  - unfold MountToFsName_init.
    pose proof (init_loop_ok_iff env (mount_to_fsname env) []) as H.
    split.
    + intros [converter Hc]. intros rex_str fsname Hin.
      apply (proj1 H) with (item := (rex_str, fsname)); [| exact Hin].
      destruct (fold_left _ (mount_to_fsname env) (Ok [])) as [regs|e];
        [eauto | discriminate].
    + intros Hall.
      destruct (proj2 H) as [regs Hregs].
      { intros [rex_str fsname] Hin. apply (Hall rex_str fsname Hin). }
      rewrite Hregs. cbn [rbind]. eauto.
  - intros darshan_file darshan_log e He. rewrite classify_log_unfold.
    unfold converted_features.
    destruct (get_biggest_api darshan_log) as [f0|]; cbn [rbind]; [| eauto].
    destruct (get_biggest_fs darshan_log) as [f1|]; cbn [rbind]; [| eauto].
    rewrite He. cbn [rbind]. eauto.
Qed.

Lemma regex_set_entries (d : list (Pattern * string)) (p : Pattern)
    (fsname : string) :
  map (fun rule => (pattern (fst rule), snd rule)) (regex_set d p fsname) =
  dict_set (map (fun rule => (pattern (fst rule), snd rule)) d)
    (pattern p) fsname.
Proof.
  induction d as [|[q name] d IH]; simpl; [reflexivity |].
  destruct (String.eqb (pattern q) (pattern p)); simpl; [reflexivity |].
  rewrite IH. reflexivity.
Qed.

Lemma dict_set_fresh {V : Type} (d : dict V) (k : string) (v : V) :
  ~ In k (dict_keys d) -> dict_set d k v = d ++ [(k, v)].
Proof.
  induction d as [|[k0 v0] d IH]; simpl; intros Hn; [reflexivity |].
  destruct (String.eqb_spec k0 k) as [-> | Hne].
  - exfalso. apply Hn. left. reflexivity.
  - rewrite IH; [reflexivity |]. intros Hin. apply Hn. right. exact Hin.
Qed.

(** Assigning the items of a dict, in order, to a dict that has none of its
    keys appends them. *)
Lemma fold_dict_set_nodup {V : Type} (items : dict V) :
  forall d,
    NoDup (dict_keys items) ->
    (forall k, In k (dict_keys items) -> ~ In k (dict_keys d)) ->
    fold_left (fun acc item => dict_set acc (fst item) (snd item)) items d =
    d ++ items.
Proof.
  induction items as [|[k v] items IH]; intros d Hnd Hfresh; simpl.
  - rewrite app_nil_r. reflexivity.
  - simpl in Hnd. inversion Hnd as [|k' l Hk Hnd']; subst.
    rewrite dict_set_fresh by (apply Hfresh; left; reflexivity).
    rewrite IH.
    + rewrite <- app_assoc. reflexivity.
    + exact Hnd'.
    + intros k0 Hin0. unfold dict_keys. rewrite map_app, in_app_iff. simpl.
      intros [Hd | [<- | []]].
      * apply (Hfresh k0); [right; exact Hin0 | exact Hd].
      * apply Hk. exact Hin0.
Qed.

Lemma init_loop_entries (env : Env) (config : list (string * string)) :
  forall d regs,
    fold_left
      (fun acc item =>
         (d <- acc ;;
          p <- compile env (fst item) ;;
          Ok (regex_set d p (snd item)))%result)
      config (Ok d) = Ok regs ->
    map (fun rule => (pattern (fst rule), snd rule)) regs =
    fold_left (fun acc item => dict_set acc (fst item) (snd item)) config
      (map (fun rule => (pattern (fst rule), snd rule)) d).
Proof.
  induction config as [|item config IH]; intros d regs; simpl.
  - intros [= <-]. reflexivity.
  - unfold compile at 2.
    destruct (re_compile env (fst item)) as [m|e]; cbn [rbind].
    + intros H. rewrite (IH _ _ H), regex_set_entries. reflexivity.
    + rewrite init_loop_raise. discriminate.
Qed.

(** X5.  The table of a converter, from regular expression to filesystem
    name, is the configuration with ['/project'] assigned ['mira-fs1']
    last: the configured rules keep their order, a configured ['/project']
    rule keeps its place and loses its name, and otherwise the hard-coded
    rule comes after all the configured ones. *)
Theorem MountToFsName_init_rules :
  forall (env : Env) (converter : MountToFsName),
    NoDup (dict_keys (mount_to_fsname env)) ->
    MountToFsName_init env = Ok converter ->
    rule_entries converter =
    dict_set (mount_to_fsname env) "/project" "mira-fs1" /\
    dict_get (rule_entries converter) "/project" = Some "mira-fs1" /\
    (~ In "/project" (dict_keys (mount_to_fsname env)) ->
     rule_entries converter =
     mount_to_fsname env ++ [("/project", "mira-fs1")]).
Proof.
  intros env converter Hnd. unfold MountToFsName_init.
  destruct (fold_left _ (mount_to_fsname env) (Ok [])) as [regs|e] eqn:Hloop;
    cbn [rbind]; [| discriminate].
  intros [= <-]. unfold rule_entries. cbn [mount_regex].
  rewrite regex_set_entries. cbn [pattern project_pattern].
  rewrite (init_loop_entries env _ _ _ Hloop). cbn [map].
  rewrite (fold_dict_set_nodup (mount_to_fsname env) [] Hnd)
    by (intros k _ []).
  cbn [app]. split; [reflexivity |]. split.
  - rewrite dict_get_set, String.eqb_refl. reflexivity.
  - intros Hfresh. apply dict_set_fresh. exact Hfresh.
Qed.

Lemma first_match_app (a b : list (Pattern * string)) (mount : string) :
  first_match (a ++ b) mount =
  match first_match a mount with
  | Some fsname => Some fsname
  | None => first_match b mount
  end.
Proof.
  induction a as [|[p name] a IH]; simpl; [reflexivity |].
  destruct (re_match p mount); [reflexivity | exact IH].
Qed.

Lemma regex_set_fresh (d : list (Pattern * string)) (p : Pattern)
    (fsname : string) :
  (forall q name, In (q, name) d -> pattern q <> pattern p) ->
  regex_set d p fsname = d ++ [(p, fsname)].
Proof.
  induction d as [|[q name] d IH]; simpl; intros Hn; [reflexivity |].
  destruct (String.eqb_spec (pattern q) (pattern p)) as [Heq | Hne].
  - exfalso. apply (Hn q name); auto.
  - rewrite IH; [reflexivity |]. intros q' name' Hin. apply (Hn q' name').
    right. exact Hin.
Qed.

Lemma regex_set_in (d : list (Pattern * string)) (p q : Pattern)
    (fsname name : string) :
  In (q, name) (regex_set d p fsname) ->
  q = p \/ exists name', In (q, name') d.
Proof.
  induction d as [|[q0 name0] d IH]; simpl.
  - intros [[= <- <-] | []]. left. reflexivity.
  - destruct (String.eqb (pattern q0) (pattern p)); simpl.
    + intros [[= <- <-] | Hin]; right; eauto.
    + intros [[= <- <-] | Hin]; [right; eauto |].
      destruct (IH Hin) as [-> | [name' Hin']]; [left; reflexivity |].
      right. eauto.
Qed.

(** Every rule the loop adds was compiled from a configured source. *)
Lemma init_loop_compiled (env : Env) (config : list (string * string)) :
  forall d regs,
    fold_left
      (fun acc item =>
         (d <- acc ;;
          p <- compile env (fst item) ;;
          Ok (regex_set d p (snd item)))%result)
      config (Ok d) = Ok regs ->
    forall q name,
      In (q, name) regs ->
      (exists name', In (q, name') d) \/
      (In (pattern q) (dict_keys config) /\
       re_compile env (pattern q) = Ok (re_match q)).
Proof.
  induction config as [|item config IH]; intros d regs; simpl.
  - intros [= <-] q name Hin. left. eauto.
  - unfold compile at 2.
    destruct (re_compile env (fst item)) as [m|e] eqn:Hc; cbn [rbind].
    + intros H q name Hin.
      destruct (IH _ _ H q name Hin) as [[name' Hin'] | [Hk Hq]].
      * apply regex_set_in in Hin'.
        destruct Hin' as [-> | Hd]; [| left; exact Hd].
        right. simpl. split; [left; reflexivity | exact Hc].
      * right. split; [right; exact Hk | exact Hq].
    + rewrite init_loop_raise. discriminate.
Qed.

(** X6.  With no configured ['/project'] rule, a mount that starts with
    ['/project'] and that no configured regular expression matches is
    converted to ['mira-fs1']. *)
Theorem convert_project_mount :
  forall (env : Env) (converter : MountToFsName) (mount : string),
    MountToFsName_init env = Ok converter ->
    ~ In "/project" (dict_keys (mount_to_fsname env)) ->
    (forall rex_str m, In rex_str (dict_keys (mount_to_fsname env)) ->
                       re_compile env rex_str = Ok m -> m mount = false) ->
    startswith mount "/project" = true ->
    convert converter mount = "mira-fs1".
Proof.
  intros env converter mount. unfold MountToFsName_init.
  destruct (fold_left _ (mount_to_fsname env) (Ok [])) as [regs|e] eqn:Hloop;
    cbn [rbind]; [| discriminate].
  intros [= <-] Hfresh Hnone Hstart.
  pose proof (init_loop_compiled env _ _ _ Hloop) as Hcompiled.
  assert (Hsrc : forall q name, In (q, name) regs ->
                                In (pattern q) (dict_keys (mount_to_fsname env)) /\
                                re_compile env (pattern q) = Ok (re_match q)).
  { intros q name Hin.
    destruct (Hcompiled q name Hin) as [[name' []] | H]; exact H. }
  unfold convert. cbn [mount_regex].
  destruct (String.eqb_spec mount "/") as [-> | _]; [discriminate |].
  rewrite regex_set_fresh.
  - rewrite first_match_app, first_match_none.
    + simpl. rewrite Hstart. reflexivity.
    + intros q name Hin. destruct (Hsrc q name Hin) as [Hk Hq].
      apply (Hnone (pattern q) (re_match q) Hk Hq).
  - intros q name Hin Heq. destruct (Hsrc q name Hin) as [Hk _].
    apply Hfresh. cbn [pattern project_pattern] in Heq. rewrite <- Heq.
    exact Hk.
Qed.

(** ** [get_biggest_api] *)

Lemma max_by_first_max {A : Type} (key : A -> Z) (l : list A) :
  forall before best mid,
    (forall x, In x before -> key x < key best) ->
    (forall x, In x mid -> key x <= key best) ->
    is_first_max key (before ++ best :: mid ++ l) (max_by key best l).
Proof.
  induction l as [|x l IH]; intros before best mid Hb Hm; simpl.
  - exists before, mid. rewrite app_nil_r. auto.
  - destruct (Z.gtb_spec (key x) (key best)) as [Hgt | Hle].
    + specialize (IH (before ++ best :: mid) x []).
      replace (before ++ best :: mid ++ x :: l)
        with ((before ++ best :: mid) ++ x :: [] ++ l)
        by (rewrite <- app_assoc; reflexivity).
      apply IH.
      * intros y Hy. apply in_app_iff in Hy.
        destruct Hy as [Hy | [<- | Hy]].
        -- specialize (Hb y Hy). lia.
        -- lia.
        -- specialize (Hm y Hy). lia.
      * intros y [].
    + specialize (IH before best (mid ++ [x])).
      replace (before ++ best :: mid ++ x :: l)
        with (before ++ best :: (mid ++ [x]) ++ l)
        by (rewrite <- app_assoc; reflexivity).
      apply IH; [exact Hb |].
      intros y Hy. apply in_app_iff in Hy.
      destruct Hy as [Hy | [<- | []]]; [auto | lia].
Qed.

Lemma py_max_first_max {A : Type} (key : A -> Z) (l : list A) (a : A) :
  py_max key l = Ok a -> is_first_max key l a.
Proof.
  destruct l as [|x l]; simpl; [discriminate |]. intros [= <-].
  apply (max_by_first_max key l [] x []); intros y [].
Qed.

(** X7.  The dominant read API is the first, in the order of [counters], of
    the APIs whose read total is the largest, and the bytes and the count
    reported are that API's; likewise for writing. *)
Theorem get_biggest_api_dominant :
  forall (darshan_data : DarshanLog) (c : Counters) (features : Features),
    counters darshan_data = Some c ->
    get_biggest_api darshan_data = Ok features ->
    exists r w,
      is_first_max (fun kv => api_read (snd kv)) (biggest_api_table c) r /\
      is_first_max (fun kv => api_write (snd kv)) (biggest_api_table c) w /\
      In (fst r) (dict_keys c) /\ In (fst w) (dict_keys c) /\
      biggest_read_api features = Some (fst r) /\
      biggest_read_api_bytes features = Some (api_read (snd r)) /\
      biggest_read_api_files features = Some (api_read_files (snd r)) /\
      biggest_write_api features = Some (fst w) /\
      biggest_write_api_bytes features = Some (api_write (snd w)) /\
      biggest_write_api_files features = Some (api_write_files (snd w)).
Proof.
  intros darshan_data c features Hc. unfold get_biggest_api. rewrite Hc.
  destruct (py_max (fun kv => api_read (snd kv)) (biggest_api_table c))
    as [r|] eqn:Hr; cbn [rbind]; [| discriminate].
  destruct (py_max (fun kv => api_write (snd kv)) (biggest_api_table c))
    as [w|] eqn:Hw; cbn [rbind]; [| discriminate].
  intros [= <-]. exists r, w. simpl.
  assert (Hkeys : forall kv, In kv (biggest_api_table c) ->
                             In (fst kv) (dict_keys c)).
  { intros kv Hin. unfold biggest_api_table in Hin.
    apply in_map_iff in Hin. destruct Hin as (api & <- & Hapi). simpl.
    unfold dict_keys. apply in_map. exact Hapi. }
  split; [apply py_max_first_max; exact Hr |].
  split; [apply py_max_first_max; exact Hw |].
  split; [apply Hkeys; apply (py_max_in _ _ _ Hr) |].
  split; [apply Hkeys; apply (py_max_in _ _ _ Hw) |].
  repeat split.
Qed.

Lemma zsum_app (a b : list Z) : zsum (a ++ b) = zsum a + zsum b.
Proof. induction a as [|x a IH]; simpl; [reflexivity | rewrite IH; lia]. Qed.

Lemma count_nonzero_cons (counter : CounterBag -> Z) (r : CounterBag)
    (records : list CounterBag) :
  count_nonzero counter (r :: records) =
  (if counter r =? 0 then 0 else 1) + count_nonzero counter records.
Proof.
  unfold count_nonzero. cbn [filter].
  destruct (counter r =? 0); cbn [negb List.length];
    [lia | rewrite Nat2Z.inj_succ; lia].
Qed.

Lemma count_nonzero_app (counter : CounterBag -> Z) (a b : list CounterBag) :
  count_nonzero counter (a ++ b) =
  count_nonzero counter a + count_nonzero counter b.
Proof.
  unfold count_nonzero. rewrite filter_app, length_app. lia.
Qed.

(** One record adds its bytes to the totals, and one to a count when its
    bytes are not zero. *)
Lemma add_record_api_sums (acc : ApiSummary) (r : CounterBag) :
  api_read (add_record_api acc r) = api_read acc + record_read r /\
  api_write (add_record_api acc r) = api_write acc + record_written r /\
  api_read_files (add_record_api acc r) =
    api_read_files acc + (if record_read r =? 0 then 0 else 1) /\
  api_write_files (add_record_api acc r) =
    api_write_files acc + (if record_written r =? 0 then 0 else 1).
Proof.
  unfold add_record_api, record_read, record_written.
  destruct (BYTES_READ r) as [br|], (BYTES_WRITTEN r) as [bw|];
    repeat match goal with
           | |- context [?x =? 0] =>
               destruct (Z.eqb_spec x 0)
           end; simpl; repeat split; lia.
Qed.

Lemma fold_add_record_api_sums (records : list CounterBag) :
  forall acc,
    api_read (fold_left add_record_api records acc) =
      api_read acc + zsum (map record_read records) /\
    api_write (fold_left add_record_api records acc) =
      api_write acc + zsum (map record_written records) /\
    api_read_files (fold_left add_record_api records acc) =
      api_read_files acc + count_nonzero record_read records /\
    api_write_files (fold_left add_record_api records acc) =
      api_write_files acc + count_nonzero record_written records.
Proof.
  induction records as [|r records IH]; intros acc.
  - unfold count_nonzero. simpl. repeat split; lia.
  - simpl fold_left. destruct (IH (add_record_api acc r)) as (H1 & H2 & H3 & H4).
    destruct (add_record_api_sums acc r) as (A1 & A2 & A3 & A4).
    rewrite H1, H2, H3, H4, A1, A2, A3, A4, !count_nonzero_cons.
    simpl. repeat split; lia.
Qed.

Lemma fold_add_file_api_sums (files : dict (dict CounterBag)) :
  forall acc,
    api_read (fold_left add_file_api files acc) =
      api_read acc + zsum (map record_read (real_records files)) /\
    api_write (fold_left add_file_api files acc) =
      api_write acc + zsum (map record_written (real_records files)) /\
    api_read_files (fold_left add_file_api files acc) =
      api_read_files acc + count_nonzero record_read (real_records files) /\
    api_write_files (fold_left add_file_api files acc) =
      api_write_files acc + count_nonzero record_written (real_records files).
Proof.
  induction files as [|item files IH]; intros acc.
  - unfold count_nonzero. simpl. repeat split; lia.
  - simpl fold_left. simpl real_records.
    destruct (IH (add_file_api acc item)) as (H1 & H2 & H3 & H4).
    rewrite H1, H2, H3, H4. unfold add_file_api.
    destruct (startswith (fst item) "_").
    + simpl. auto.
    + destruct (fold_add_record_api_sums (dict_values (snd item)) acc)
        as (A1 & A2 & A3 & A4).
      rewrite A1, A2, A3, A4, !map_app, !zsum_app, !count_nonzero_app.
      repeat split; lia.
Qed.

(** X8.  The totals of one API: its bytes are the sums of [BYTES_READ] and
    of [BYTES_WRITTEN] over the records of the file rows that do not begin
    with an underscore, and its two "files" counts are the numbers of those
    records whose counter is not zero: a file with several such records is
    counted once for each. *)
Theorem api_totals_sums :
  forall (files : dict (dict CounterBag)),
    api_read (api_totals files) =
      zsum (map record_read (real_records files)) /\
    api_write (api_totals files) =
      zsum (map record_written (real_records files)) /\
    api_read_files (api_totals files) =
      count_nonzero record_read (real_records files) /\
    api_write_files (api_totals files) =
      count_nonzero record_written (real_records files).
Proof.
  intros files. unfold api_totals.
  destruct (fold_add_file_api_sums files api_zero) as (H1 & H2 & H3 & H4).
  rewrite H1, H2, H3, H4. simpl. repeat split; lia.
Qed.

Lemma add_record_api_idle (acc : ApiSummary) (r : CounterBag) :
  record_idle r -> add_record_api acc r = acc.
Proof.
  unfold record_idle, record_read, record_written, add_record_api.
  intros [Hr Hw].
  destruct (BYTES_READ r) as [br|], (BYTES_WRITTEN r) as [bw|]; subst;
    reflexivity.
Qed.

Lemma fold_add_file_api_idle (files : dict (dict CounterBag)) :
  Forall (fun item => Forall record_idle (dict_values (snd item))) files ->
  forall acc, fold_left add_file_api files acc = acc.
Proof.
  induction files as [|item files IH]; intros Hall acc; simpl; [reflexivity |].
  inversion Hall as [|x l Hitem Hrest]; subst.
  rewrite IH by assumption. unfold add_file_api.
  destruct (startswith (fst item) "_"); [reflexivity |].
  clear IH Hall Hrest. revert acc.
  induction (dict_values (snd item)) as [|r records IHr]; intros acc; simpl;
    [reflexivity |].
  inversion Hitem; subst. rewrite add_record_api_idle by assumption.
  apply IHr. assumption.
Qed.

Lemma biggest_api_table_idle (c : Counters) :
  counters_idle c ->
  biggest_api_table c = map (fun api => (fst api, api_zero)) c.
Proof.
  unfold counters_idle, biggest_api_table. intros Hall.
  apply map_ext_in. intros api Hin. rewrite Forall_forall in Hall.
  unfold api_totals. rewrite fold_add_file_api_idle; [reflexivity |].
  apply Hall. exact Hin.
Qed.

Lemma max_by_all_le {A : Type} (key : A -> Z) (l : list A) (best : A) :
  (forall x, In x l -> key x <= key best) -> max_by key best l = best.
Proof.
  induction l as [|x l IH]; intros H; simpl; [reflexivity |].
  destruct (Z.gtb_spec (key x) (key best)) as [Hgt | Hle].
  - specialize (H x (or_introl eq_refl)). lia.
  - apply IH. intros y Hy. apply H. right. exact Hy.
Qed.

(** X9.  When no record of the trace moved a byte (every counter zero or
    absent), the dominant API in both directions is the first API of
    [counters], with 0 bytes and 0 files, and a classification that returns
    is labelled ['unknown'] and ['shared'], on the filesystem ['unknown'] of
    the system ['unknown']. *)
Theorem idle_counters_unknown :
  forall (darshan_data : DarshanLog) (api_name : string)
         (files : dict (dict CounterBag)) (rest : Counters),
    counters darshan_data = Some ((api_name, files) :: rest) ->
    counters_idle ((api_name, files) :: rest) ->
    get_biggest_api darshan_data =
    Ok {| biggest_read_api := Some api_name;
          biggest_read_api_bytes := Some 0;
          biggest_read_api_files := Some 0;
          biggest_write_api := Some api_name;
          biggest_write_api_bytes := Some 0;
          biggest_write_api_files := Some 0;
          biggest_read_fs := None; biggest_read_fs_bytes := None;
          biggest_write_fs := None; biggest_write_fs_bytes := None |} /\
    forall env darshan_file result ws,
      run (classify_log env darshan_file darshan_data) = (Ok result, ws) ->
      read_or_write result = Some "unknown" /\
      shared_or_fpp result = Some "shared" /\
      file_system result = Some "unknown" /\
      compute_system result = Some "unknown".
Proof.
  intros darshan_data api_name files rest Hc Hidle.
  assert (Hapi : get_biggest_api darshan_data =
                 Ok {| biggest_read_api := Some api_name;
                       biggest_read_api_bytes := Some 0;
                       biggest_read_api_files := Some 0;
                       biggest_write_api := Some api_name;
                       biggest_write_api_bytes := Some 0;
                       biggest_write_api_files := Some 0;
                       biggest_read_fs := None; biggest_read_fs_bytes := None;
                       biggest_write_fs := None;
                       biggest_write_fs_bytes := None |}).
  { unfold get_biggest_api. rewrite Hc.
    rewrite (biggest_api_table_idle _ Hidle). cbn [map fst py_max].
    rewrite !max_by_all_le.
    - reflexivity.
    - intros x Hx. apply in_map_iff in Hx. destruct Hx as (a & <- & _).
      simpl. lia.
    - intros x Hx. apply in_map_iff in Hx. destruct Hx as (a & <- & _).
      simpl. lia. }
  split; [exact Hapi |].
  intros env darshan_file result ws Hrun.
  assert (Hlabel : read_or_write result = Some "unknown").
  { destruct (classify_log_returns _ _ _ _ _ Hrun)
      as (features & label & fs & most_files & fpp & Hfeat & Hstep & _ & Hrw & _).
    destruct (converted_features_api_keys _ _ _ Hfeat)
      as (f0 & Hf0 & Hr & Hw & _).
    rewrite Hapi in Hf0. injection Hf0 as <-. simpl in Hr, Hw.
    revert Hstep. unfold read_or_write_step. rewrite Hr, Hw.
    cbn [rbind getitem]. change (0 >? 10 * 0) with false. cbv iota.
    intros [= <- <- <-]. exact Hrw. }
  destruct (classified_unknown_is_shared _ _ _ _ _ Hrun Hlabel)
    as (H1 & H2 & H3).
  auto.
Qed.

(** ** [get_biggest_fs] *)

Lemma get_biggest_fs_inv (darshan_data : DarshanLog) (c : Counters)
    (features : Features) :
  counters darshan_data = Some c ->
  get_biggest_fs darshan_data = Ok features ->
  exists read_api write_api m t r w,
    dominant_apis darshan_data = Ok (read_api, write_api) /\
    mounts darshan_data = Some m /\
    biggest_fs_table c (dict_keys m) read_api write_api = Ok t /\
    py_max (fun kv => fs_read (snd kv)) t = Ok r /\
    py_max (fun kv => fs_write (snd kv)) t = Ok w /\
    biggest_read_fs features = Some (fst r) /\
    biggest_read_fs_bytes features = Some (fs_read (snd r)) /\
    biggest_write_fs features = Some (fst w) /\
    biggest_write_fs_bytes features = Some (fs_write (snd w)).
Proof.
  intros Hc. unfold get_biggest_fs. rewrite Hc.
  destruct (dominant_apis darshan_data) as [[ra wa]|]; cbn [rbind];
    [| discriminate].
  destruct (mounts darshan_data) as [m|]; cbn [rbind getitem]; [| discriminate].
  destruct (biggest_fs_table c (dict_keys m) ra wa) as [t|] eqn:Ht;
    cbn [rbind]; [| discriminate].
  destruct (py_max (fun kv => fs_read (snd kv)) t) as [r|] eqn:Hr;
    cbn [rbind]; [| discriminate].
  destruct (py_max (fun kv => fs_write (snd kv)) t) as [w|] eqn:Hw;
    cbn [rbind]; [| discriminate].
  intros [= <-]. exists ra, wa, m, t, r, w. simpl. repeat split; auto.
Qed.

(** X10.  The dominant read filesystem is the first, in the order in which
    the loop met them, of the filesystem keys whose read total is the
    largest, and the bytes reported are its total; likewise for writing. *)
Theorem get_biggest_fs_dominant :
  forall (darshan_data : DarshanLog) (c : Counters) (features : Features),
    counters darshan_data = Some c ->
    get_biggest_fs darshan_data = Ok features ->
    exists read_api write_api m t r w,
      dominant_apis darshan_data = Ok (read_api, write_api) /\
      mounts darshan_data = Some m /\
      biggest_fs_table c (dict_keys m) read_api write_api = Ok t /\
      is_first_max (fun kv => fs_read (snd kv)) t r /\
      is_first_max (fun kv => fs_write (snd kv)) t w /\
      biggest_read_fs features = Some (fst r) /\
      biggest_read_fs_bytes features = Some (fs_read (snd r)) /\
      biggest_write_fs features = Some (fst w) /\
      biggest_write_fs_bytes features = Some (fs_write (snd w)).
Proof.
  intros darshan_data c features Hc Hfs.
  destruct (get_biggest_fs_inv _ _ _ Hc Hfs)
    as (ra & wa & m & t & r & w & H1 & H2 & H3 & Hr & Hw & H4).
  exists ra, wa, m, t, r, w.
  repeat (split; [solve [auto using py_max_first_max] |]). exact H4.
Qed.

Lemma fs_key_mount_or_unknown (path : string) (mounts : list string) :
  fs_key path mounts = "_unknown" \/ In (fs_key path mounts) mounts.
Proof.
  unfold fs_key.
  destruct (_identify_fs_from_path path mounts) as [m|] eqn:E;
    [| left; reflexivity].
  apply identify_fs_some_iff in E. right. apply E.
Qed.

Lemma dict_keys_adjust {V : Type} (f : V -> V) (d : dict V) (k : string) :
  dict_keys (dict_adjust f d k) = dict_keys d.
Proof.
  induction d as [|[k0 v0] d IH]; simpl; [reflexivity |].
  destruct (String.eqb k0 k); simpl; [reflexivity |].
  f_equal. exact IH.
Qed.

Lemma dict_keys_set {V : Type} (d : dict V) (k k' : string) (v : V) :
  In k' (dict_keys (dict_set d k v)) -> k' = k \/ In k' (dict_keys d).
Proof.
  induction d as [|[k0 v0] d IH]; simpl.
  - intros [<- | []]. left. reflexivity.
  - destruct (String.eqb k0 k); simpl.
    + intros [<- | H]; right; auto.
    + intros [<- | H]; [right; left; reflexivity |].
      destruct (IH H) as [-> | H']; auto.
Qed.

Section FsKeys.

(** A property of keys that the key of every file has. *)
Variable mounts : list string.
Variable P : string -> Prop.
Hypothesis P_fs_key : forall path, P (fs_key path mounts).

Lemma add_record_fs_keys (key : string) (t : dict FsSummary) (r : CounterBag) :
  P key -> Forall P (dict_keys t) ->
  Forall P (dict_keys (add_record_fs key t r)).
Proof.
  intros Hkey Ht. unfold add_record_fs.
  assert (H0 : Forall P (dict_keys (if dict_mem t key then t
                                    else dict_set t key fs_zero))).
  { destruct (dict_mem t key); [exact Ht |].
    apply Forall_forall. intros k Hk. apply dict_keys_set in Hk.
    destruct Hk as [-> | Hk]; [exact Hkey |].
    rewrite Forall_forall in Ht. auto. }
  destruct (BYTES_READ r), (BYTES_WRITTEN r); rewrite ?dict_keys_adjust;
    exact H0.
Qed.

Lemma fold_add_file_fs_keys (files : dict (dict CounterBag)) :
  forall t, Forall P (dict_keys t) ->
            Forall P (dict_keys (fold_left (add_file_fs mounts) files t)).
Proof.
  induction files as [|item files IH]; intros t Ht; simpl; [exact Ht |].
  apply IH. unfold add_file_fs.
  destruct (is_perf_or_total (fst item)); [exact Ht |].
  generalize (dict_values (snd item)). intros records. revert t Ht.
  induction records as [|r records IHr]; intros t Ht; simpl; [exact Ht |].
  apply IHr. apply add_record_fs_keys; [apply P_fs_key | exact Ht].
Qed.

Lemma biggest_fs_table_keys (c : Counters) (read_api write_api : string)
    (t : dict FsSummary) :
  biggest_fs_table c mounts read_api write_api = Ok t ->
  Forall P (dict_keys t).
Proof.
  unfold biggest_fs_table, add_api_fs. cbn [fold_left rbind].
  destruct (dict_get c read_api) as [rfiles|]; cbn [rbind getitem];
    [| discriminate].
  destruct (dict_get c write_api) as [wfiles|]; cbn [rbind getitem];
    [| discriminate].
  intros [= <-]. apply fold_add_file_fs_keys, fold_add_file_fs_keys.
  constructor.
Qed.

End FsKeys.

(** X11.  A filesystem [get_biggest_fs] reports is a mount of the trace's
    mount table or the key ['_unknown']: no other key is ever created. *)
Theorem get_biggest_fs_key_is_mount_or_unknown :
  forall (darshan_data : DarshanLog) (features : Features) (k : string),
    get_biggest_fs darshan_data = Ok features ->
    biggest_read_fs features = Some k \/ biggest_write_fs features = Some k ->
    exists m, mounts darshan_data = Some m /\
              (k = "_unknown" \/ In k (dict_keys m)).
Proof.
  intros darshan_data features k Hfs Hk.
  destruct (counters darshan_data) as [c|] eqn:Hc.
  - destruct (get_biggest_fs_inv _ _ _ Hc Hfs)
      as (ra & wa & m & t & r & w & _ & Hm & Ht & Hr & Hw & H1 & _ & H2 & _).
    exists m. split; [exact Hm |].
    pose proof (biggest_fs_table_keys (dict_keys m)
                  (fun k => k = "_unknown" \/ In k (dict_keys m))
                  (fun path => fs_key_mount_or_unknown path (dict_keys m))
                  c ra wa t Ht) as Hkeys.
    rewrite Forall_forall in Hkeys.
    apply py_max_in in Hr. apply py_max_in in Hw.
    destruct Hk as [Hk | Hk].
    + rewrite H1 in Hk. injection Hk as <-. apply Hkeys.
      unfold dict_keys. apply in_map. exact Hr.
    + rewrite H2 in Hk. injection Hk as <-. apply Hkeys.
      unfold dict_keys. apply in_map. exact Hw.
  - unfold get_biggest_fs in Hfs. rewrite Hc in Hfs. injection Hfs as <-.
    destruct Hk as [Hk | Hk]; discriminate.
Qed.

Lemma dict_get_of_key {V : Type} (d : dict V) (k : string) :
  In k (dict_keys d) -> exists v, dict_get d k = Some v /\ In (k, v) d.
Proof.
  induction d as [|[k0 v0] d IH]; simpl; [intros [] |].
  destruct (String.eqb_spec k0 k) as [-> | Hne].
  - intros _. exists v0. auto.
  - intros [Heq | Hin]; [contradiction |].
    destruct (IH Hin) as (v & Hv & Hin'). exists v. auto.
Qed.

Lemma fold_add_file_fs_synthetic (mounts : list string)
    (files : dict (dict CounterBag)) :
  Forall (fun item => is_perf_or_total (fst item) = true \/ snd item = [])
         files ->
  forall t, fold_left (add_file_fs mounts) files t = t.
Proof.
  induction files as [|item files IH]; intros Hall t; cbn [fold_left];
    [reflexivity |].
  inversion Hall as [|x l Hitem Hrest]; subst. rewrite IH by assumption.
  unfold add_file_fs. destruct Hitem as [H | H].
  - change (is_perf_or_total (fst item) = true) in H. rewrite H. reflexivity.
  - change (snd item = []) in H. rewrite H.
    destruct (is_perf_or_total (fst item)); reflexivity.
Qed.

(** With a non-empty [counters], [get_biggest_api] returns, and the two
    names it returns are APIs of [counters]. *)
Lemma get_biggest_api_names (darshan_data : DarshanLog) (c : Counters) :
  counters darshan_data = Some c -> c <> [] ->
  exists features r w,
    get_biggest_api darshan_data = Ok features /\
    biggest_read_api features = Some r /\
    biggest_write_api features = Some w /\
    In r (dict_keys c) /\ In w (dict_keys c).
Proof.
  intros Hc Hne. unfold get_biggest_api. rewrite Hc.
  assert (Hkeys : forall kv, In kv (biggest_api_table c) ->
                             In (fst kv) (dict_keys c)).
  { intros kv Hin. unfold biggest_api_table in Hin.
    apply in_map_iff in Hin. destruct Hin as (api & <- & Hapi). simpl.
    unfold dict_keys. apply in_map. exact Hapi. }
  destruct (py_max (fun kv => api_read (snd kv)) (biggest_api_table c))
    as [r|] eqn:Hr.
  - destruct (py_max (fun kv => api_write (snd kv)) (biggest_api_table c))
      as [w|] eqn:Hw.
    + cbn [rbind]. eexists _, (fst r), (fst w). simpl.
      split; [reflexivity |]. split; [reflexivity |]. split; [reflexivity |].
      split; apply Hkeys; eapply py_max_in; eassumption.
    + destruct c; [contradiction | discriminate].
  - destruct c; [contradiction | discriminate].
Qed.

(** X12.  A trace whose file rows are all ['_perf'] or ['_total'] rows (or
    hold no record) passes [get_biggest_api] when it has an API, but leaves
    [biggest_fs] empty: [get_biggest_fs] raises the [ValueError] of [max]
    on an empty dict, and so does the classification. *)
Theorem only_synthetic_rows_raise :
  forall (env : Env) (darshan_file : string) (darshan_data : DarshanLog)
         (c : Counters) (m : dict string),
    counters darshan_data = Some c ->
    mounts darshan_data = Some m ->
    log_biggest_read_api darshan_data = None ->
    only_synthetic_rows c ->
    get_biggest_fs darshan_data =
      Raise (ValueError "max() arg is an empty sequence") /\
    run (classify_log env darshan_file darshan_data) =
      (Raise (ValueError "max() arg is an empty sequence"), []).
Proof.
  intros env darshan_file darshan_data c m Hc Hm Hlog Hsyn.
  assert (Hfs : get_biggest_fs darshan_data =
                Raise (ValueError "max() arg is an empty sequence")).
  { unfold get_biggest_fs, dominant_apis. rewrite Hc, Hlog.
    assert (Hcase : c = [] \/ c <> []).
    { destruct c; [left; reflexivity | right; discriminate]. }
    destruct Hcase as [-> | Hne].
    - unfold get_biggest_api. rewrite Hc. reflexivity.
    - destruct (get_biggest_api_names darshan_data c Hc Hne) as
        (f & r & w & Hf & Hr & Hw & Hinr & Hinw).
      rewrite Hf. cbn [rbind]. rewrite Hr. cbn [rbind getitem].
      rewrite Hw. cbn [rbind getitem]. rewrite Hm. cbn [rbind getitem].
      unfold biggest_fs_table, add_api_fs. cbn [fold_left rbind].
      destruct (dict_get_of_key c r Hinr) as (rfiles & -> & Hrf).
      destruct (dict_get_of_key c w Hinw) as (wfiles & -> & Hwf).
      cbn [rbind getitem].
      unfold only_synthetic_rows in Hsyn. rewrite Forall_forall in Hsyn.
      rewrite (fold_add_file_fs_synthetic (dict_keys m) rfiles)
        by (apply (Hsyn (r, rfiles) Hrf)).
      rewrite (fold_add_file_fs_synthetic (dict_keys m) wfiles)
        by (apply (Hsyn (w, wfiles) Hwf)).
      reflexivity. }
  split; [exact Hfs |].
  rewrite classify_log_unfold. unfold converted_features. rewrite Hfs.
  destruct (get_biggest_api darshan_data) as [f|e] eqn:Hapi; cbn [rbind];
    [reflexivity |].
  unfold get_biggest_api in Hapi. rewrite Hc in Hapi.
  destruct (biggest_api_table c) as [|kv table]; simpl in Hapi.
  - injection Hapi as <-. reflexivity.
  - discriminate.
Qed.

(** ** [classify_darshanlog] *)

Lemma has_slash_basename (p : string) : has_slash (basename p) = false.
Proof.
  induction p as [|c r IH]; [reflexivity |].
  cbn [basename]. destruct (has_slash (String c r)) eqn:E; [exact IH | exact E].
Qed.

Lemma basename_no_slash (p : string) : has_slash p = false -> basename p = p.
Proof.
  destruct p as [|c r]; [reflexivity |]. intros H. cbn [basename].
  rewrite H. reflexivity.
Qed.

Lemma has_slash_join (dir rest : string) :
  has_slash (dir ++ String "/"%char rest) = true.
Proof.
  induction dir as [|c dir IH]; cbn [append has_slash].
  - rewrite Ascii.eqb_refl. reflexivity.
  - rewrite IH. apply orb_true_r.
Qed.

Lemma basename_join (dir name : string) :
  has_slash name = false -> basename (dir ++ String "/"%char name) = name.
Proof.
  intros Hname. induction dir as [|c dir IH].
  - cbn [append basename has_slash]. rewrite Ascii.eqb_refl. cbn [orb].
    apply basename_no_slash. exact Hname.
  - cbn [append basename].
    change (has_slash (String c (dir ++ String "/"%char name)))
      with (has_slash (String c dir ++ String "/"%char name)).
    rewrite has_slash_join. exact IH.
Qed.

(** X13.  [os.path.basename] of a directory joined to a name that holds no
    slash is the name: [log_file] and [application] are last path
    components, and never hold a slash. *)
Theorem basename_of_join :
  forall (dir name : string),
    has_slash name = false ->
    basename (dir ++ "/" ++ name) = name /\
    basename name = name /\
    (forall p, has_slash (basename p) = false).
Proof.
  intros dir name Hname.
  split; [apply (basename_join dir name Hname) |].
  split; [apply basename_no_slash; exact Hname |].
  apply has_slash_basename.
Qed.

(** The application step never raises: it sets [application] from a
    non-empty [exe], and warns otherwise. *)
Lemma application_step_eval (darshan_file : string) (darshan_log : DarshanLog)
    (result : ClassResult) (ws : list string) :
  application_step darshan_file darshan_log result ws =
  match header darshan_log with
  | Some h =>
      match exe h with
      | Some (path :: _) => (Ok (set_application (basename path) result), ws)
      | _ => (Ok result, ws ++ [exe_warning darshan_file])
      end
  | None => (Ok result, ws ++ [exe_warning darshan_file])
  end.
Proof.
  unfold application_step, try_except, lift, bind, warn, ret, exe_warning.
  destruct (header darshan_log) as [h|]; cbn [rbind getitem]; [| reflexivity].
  destruct (exe h) as [[|path rest]|]; reflexivity.
Qed.

Lemma start_time_step_inv (env : Env) (darshan_log : DarshanLog)
    (result result' : ClassResult) (ws ws' : list string) :
  log_file result = None ->
  start_time_step env darshan_log result ws = (Ok result', ws') ->
  exists h ts d,
    header darshan_log = Some h /\ start_time h = Some ts /\
    strftime_date env ts = Ok d /\
    result' = set_start_time ts (set_date d result) /\ ws' = ws.
Proof.
  intros Hlf. unfold start_time_step, try_except, lift, bind.
  destruct (header darshan_log) as [h|] eqn:Hh; cbn [rbind getitem].
  - destruct (start_time h) as [ts|] eqn:Hts; cbn [rbind getitem].
    + destruct (strftime_date env ts) as [d|e] eqn:Hd; cbn [rbind].
      * intros [= <- <-]. exists h, ts, d. repeat split; auto.
      * destruct e; try discriminate; rewrite Hlf; discriminate.
    + rewrite Hlf. discriminate.
  - rewrite Hlf. discriminate.
Qed.

(** The record and the warnings of a classification that returns. *)
Lemma classify_log_inv (env : Env) (darshan_file : string)
    (darshan_log : DarshanLog) (result : ClassResult) (ws : list string) :
  run (classify_log env darshan_file darshan_log) = (Ok result, ws) ->
  exists features label fs most_files fpp h ts d digest,
    converted_features env darshan_log = Ok features /\
    read_or_write_step features = Ok (label, fs, most_files) /\
    files_per_proc most_files darshan_log = Ok fpp /\
    header darshan_log = Some h /\ start_time h = Some ts /\
    strftime_date env ts = Ok d /\
    md5_hexdigest env darshan_file = Ok digest /\
    (result, ws) =
    let base :=
      set_md5 digest
        (set_log_file (basename darshan_file)
           (set_start_time ts
              (set_date d
                 (set_shared_or_fpp (shared_or_fpp_label fpp)
                    (set_compute_system
                       (dict_get_default FSNAME_TO_SYSTEM fs "unknown")
                       (set_file_system fs
                          (set_read_or_write label empty_result))))))) in
    match exe h with
    | Some (path :: _) => (set_application (basename path) base, [])
    | _ => (base, [exe_warning darshan_file])
    end.
Proof.
  rewrite classify_log_unfold.
  destruct (converted_features env darshan_log) as [features|e] eqn:Hfeat;
    [| discriminate].
  destruct (read_or_write_step features) as [[[label fs] most_files]|e]
    eqn:Hstep; [| discriminate].
  destruct (files_per_proc most_files darshan_log) as [fpp|e] eqn:Hfpp;
    [| discriminate].
  unfold bind at 1.
  destruct (start_time_step env darshan_log _ []) as [[r1|e] ws1] eqn:Hst;
    [| discriminate].
  apply start_time_step_inv in Hst; [| reflexivity].
  destruct Hst as (h & ts & d & Hh & Hts & Hd & -> & ->).
  unfold bind at 1, lift at 1.
  destruct (md5_hexdigest env darshan_file) as [digest|e] eqn:Hmd5;
    [| discriminate].
  unfold bind at 1. rewrite application_step_eval, Hh.
  intros Hrun. exists features, label, fs, most_files, fpp, h, ts, d, digest.
  repeat (split; [first [assumption | reflexivity] |]). cbv zeta.
  destruct (exe h) as [[|path rest]|]; unfold ret in Hrun;
    injection Hrun as <- <-; reflexivity.
Qed.

Lemma read_or_write_step_label (features : Features) (label fs : string)
    (most_files : Z) :
  read_or_write_step features = Ok (label, fs, most_files) ->
  label = "read" \/ label = "write" \/ label = "unknown".
Proof.
  unfold read_or_write_step.
  destruct (biggest_read_api_bytes features) as [r|]; cbn [rbind getitem];
    [| discriminate].
  destruct (biggest_write_api_bytes features) as [w|]; cbn [rbind getitem];
    [| discriminate].
  destruct (r >? 10 * w).
  - destruct (biggest_read_fs features); cbn [rbind getitem]; [| discriminate].
    destruct (biggest_read_api_files features); cbn [rbind getitem];
      [| discriminate].
    intros [= <- <- <-]. auto.
  - destruct (w >? 10 * r).
    + destruct (biggest_write_fs features); cbn [rbind getitem];
        [| discriminate].
      destruct (biggest_write_api_files features); cbn [rbind getitem];
        [| discriminate].
      intros [= <- <- <-]. auto.
    + intros [= <- <- <-]. auto.
Qed.

Lemma compute_system_values (fs : string) :
  In (dict_get_default FSNAME_TO_SYSTEM fs "unknown")
     ["mira"; "edison"; "cori"; "unknown"].
Proof.
  unfold dict_get_default, FSNAME_TO_SYSTEM. cbn [dict_get].
  repeat match goal with
         | |- context [String.eqb ?a fs] => destruct (String.eqb a fs)
         end; simpl; auto 10.
Qed.

(** X14.  Every record [classify_darshanlog] returns is complete but for
    [application]: its two labels are among the three values of each, its
    compute system is the table's entry for its filesystem (['unknown'] for
    a filesystem the table lacks), its [start_time] is the header's and its
    [date] that timestamp formatted, its [log_file] is the basename of the
    path, without a slash, and its [md5] is the digest of the file. *)
Theorem classified_record :
  forall (env : Env) (darshan_file : string) (darshan_log : DarshanLog)
         (result : ClassResult) (ws : list string),
    run (classify_log env darshan_file darshan_log) = (Ok result, ws) ->
    exists label fs access h ts d digest,
      read_or_write result = Some label /\
      In label ["read"; "write"; "unknown"] /\
      shared_or_fpp result = Some access /\
      In access ["fpp"; "shared"; "unknown"] /\
      file_system result = Some fs /\
      compute_system result =
        Some (dict_get_default FSNAME_TO_SYSTEM fs "unknown") /\
      In (dict_get_default FSNAME_TO_SYSTEM fs "unknown")
         ["mira"; "edison"; "cori"; "unknown"] /\
      header darshan_log = Some h /\ start_time h = Some ts /\
      result_start_time result = Some ts /\
      strftime_date env ts = Ok d /\ date result = Some d /\
      log_file result = Some (basename darshan_file) /\
      has_slash (basename darshan_file) = false /\
      md5_hexdigest env darshan_file = Ok digest /\
      md5 result = Some digest.
Proof.
  intros env darshan_file darshan_log result ws Hrun.
  destruct (classify_log_inv _ _ _ _ _ Hrun)
    as (features & label & fs & most_files & fpp & h & ts & d & digest
        & _ & Hstep & _ & Hh & Hts & Hd & Hmd5 & Hres).
  exists label, fs, (shared_or_fpp_label fpp), h, ts, d, digest.
  assert (Hlabel : In label ["read"; "write"; "unknown"]).
  { destruct (read_or_write_step_label _ _ _ _ Hstep) as [-> | [-> | ->]];
      simpl; auto. }
  assert (Haccess : In (shared_or_fpp_label fpp) ["fpp"; "shared"; "unknown"]).
  { unfold shared_or_fpp_label.
    destruct (float_gt fpp float_0_90); [simpl; auto |].
    destruct (float_lt fpp float_0_10); simpl; auto. }
  cbv zeta in Hres.
  destruct (exe h) as [[|path rest]|]; injection Hres as -> ->; cbn;
    repeat split; auto using has_slash_basename;
    exact (compute_system_values fs).
Qed.

(** X15.  A classification that returns has emitted no warning and set
    [application] to the basename of the first [exe] entry, or, when the
    header has no [exe] or an empty one, has emitted the one warning
    "<log_file>: exe is undecipherable" and left [application] out. *)
Theorem classified_application_or_warning :
  forall (env : Env) (darshan_file : string) (darshan_log : DarshanLog)
         (result : ClassResult) (ws : list string),
    run (classify_log env darshan_file darshan_log) = (Ok result, ws) ->
    exists h,
      header darshan_log = Some h /\
      match exe h with
      | Some (path :: _) =>
          application result = Some (basename path) /\ ws = []
      | _ =>
          application result = None /\ ws = [exe_warning darshan_file]
      end.
Proof.
  intros env darshan_file darshan_log result ws Hrun.
  destruct (classify_log_inv _ _ _ _ _ Hrun)
    as (features & label & fs & most_files & fpp & h & ts & d & digest
        & _ & _ & _ & Hh & _ & _ & _ & Hres).
  exists h. split; [exact Hh |]. cbv zeta in Hres.
  destruct (exe h) as [[|path rest]|]; injection Hres as -> ->; auto.
Qed.

(** *** Negative process counts *)

(** Rounding a non-negative mantissa keeps the sign it is given. *)
Lemma binary_round_aux_sign (sx : bool) (mx ex : Z) (lx : location) :
  0 <= mx ->
  binary_round_aux prec emax sx mx ex lx = S754_zero sx \/
  binary_round_aux prec emax sx mx ex lx = S754_infinity sx \/
  exists m e, binary_round_aux prec emax sx mx ex lx = S754_finite sx m e.
Proof.
  intros Hm. pose proof (binary_round_aux_not_nan sx mx ex lx Hm) as Hnan.
  revert Hnan. unfold binary_round_aux.
  destruct (shr_fexp prec emax mx ex lx) as [mrs' e'].
  destruct (shr_fexp prec emax
              (round_nearest_even (shr_m mrs') (loc_of_shr_record mrs'))
              e' loc_Exact) as [mrs'' e''].
  destruct (shr_m mrs'') as [|p|p]; intros Hnan.
  - left. reflexivity.
  - destruct (e'' <=? emax - prec); [right; right; eauto | right; left; auto].
  - contradiction.
Qed.

Lemma float_of_int_neg (p : positive) (f : pyfloat) :
  float_of_int (Z.neg p) = Ok f ->
  f = S754_zero true \/ exists m e, f = S754_finite true m e.
Proof.
  unfold float_of_int, binary_normalize, binary_round.
  destruct (shl_align p 0 (fexp prec emax (Z.pos (digits2_pos p) + 0)))
    as [mz ez].
  destruct (binary_round_aux_sign true (Z.pos mz) ez loc_Exact)
    as [H | [H | (m & e & H)]]; [lia | | |]; rewrite H.
  - intros [= <-]. auto.
  - discriminate.
  - intros [= <-]. eauto.
Qed.

Lemma float_of_int_nonneg (z : Z) (f : pyfloat) :
  0 <= z -> float_of_int z = Ok f ->
  f = S754_zero false \/ exists m e, f = S754_finite false m e.
Proof.
  intros Hz. destruct z as [|p|p]; [| | lia].
  - intros [= <-]. auto.
  - unfold float_of_int, binary_normalize, binary_round.
    destruct (shl_align p 0 (fexp prec emax (Z.pos (digits2_pos p) + 0)))
      as [mz ez].
    destruct (binary_round_aux_sign false (Z.pos mz) ez loc_Exact)
      as [H | [H | (m & e & H)]]; [lia | | |]; rewrite H.
    + intros [= <-]. auto.
    + discriminate.
    + intros [= <-]. eauto.
Qed.

Lemma float_of_int_neg_small (p : positive) :
  Z.pos p < 2 ^ 53 ->
  exists m e, float_of_int (Z.neg p) = Ok (S754_finite true m e).
Proof.
  intros Hp. pose proof (digits2_pos_le_53 p Hp) as Hd.
  unfold float_of_int, binary_normalize, binary_round, shl_align.
  assert (Hf : fexp prec emax (Z.pos (digits2_pos p) + 0) - 0 =
               Z.pos (digits2_pos p) - 53).
  { unfold fexp, emin, prec, emax. lia. }
  rewrite Hf.
  destruct (Z.pos (digits2_pos p) - 53) as [|d|d] eqn:Hdiff; try lia.
  - rewrite binary_round_aux_canonical by lia. eauto.
  - rewrite binary_round_aux_canonical.
    + eauto.
    + rewrite digits2_pos_iter_xO. lia.
    + unfold fexp, emin, prec, emax. lia.
Qed.

(** The quotient of two finite floats has the sign of the division. *)
Lemma SFdiv_finite_sign (sx sy : bool) (mx my : positive) (ex ey : Z) :
  let q := SFdiv prec emax (S754_finite sx mx ex) (S754_finite sy my ey) in
  q = S754_zero (xorb sx sy) \/ q = S754_infinity (xorb sx sy) \/
  exists m e, q = S754_finite (xorb sx sy) m e.
Proof.
  cbv zeta. unfold SFdiv, SFdiv_core_binary.
  set (s := ex - ey -
            Z.min (fexp prec emax
                     (Zdigits2 (Z.pos mx) + ex - (Zdigits2 (Z.pos my) + ey)))
                  (ex - ey)).
  set (m' := match s with
             | 0 => Z.pos mx
             | Z.pos _ => Z.shiftl (Z.pos mx) s
             | Z.neg _ => 0
             end).
  assert (Hm' : 0 <= m').
  { unfold m'. destruct s as [|p|p]; try lia.
    apply Z.shiftl_nonneg. lia. }
  destruct (Z.div_eucl m' (Z.pos my)) as [q r] eqn:E.
  assert (Hq : q = m' / Z.pos my) by (unfold Z.div; rewrite E; reflexivity).
  apply binary_round_aux_sign. rewrite Hq. apply Z.div_pos; lia.
Qed.

Lemma negative_float_shared (x : pyfloat) :
  x = S754_zero true \/ x = S754_infinity true \/
  (exists m e, x = S754_finite true m e) ->
  shared_or_fpp_label x = "shared".
Proof.
  intros [-> | [-> | (m & e & ->)]]; reflexivity.
Qed.

(** X16.  A negative [nprocs] is not rejected: with a non-negative file
    count every quotient the division yields is negative or a negative
    zero and is labelled ['shared'], and for counts below 2^53 in size the
    division does yield one. *)
Theorem negative_nprocs_shared :
  forall (most_files : Z) (darshan_log : DarshanLog) (h : Header) (n : Z),
    header darshan_log = Some h -> nprocs h = Some n ->
    n < 0 -> 0 <= most_files ->
    (forall x, files_per_proc most_files darshan_log = Ok x ->
               shared_or_fpp_label x = "shared") /\
    (- 2 ^ 53 < n -> most_files < 2 ^ 53 ->
     exists x, files_per_proc most_files darshan_log = Ok x).
Proof.
  intros most_files darshan_log h n Hh Hn Hneg Hmf.
  unfold files_per_proc.
  destruct n as [|p|p]; try lia. split.
  - intros x.
    destruct (float_of_int most_files) as [a|] eqn:Ha; cbn [rbind];
      [| discriminate].
    rewrite Hh. cbn [rbind getitem]. rewrite Hn. cbn [rbind getitem].
    destruct (float_of_int (Z.neg p)) as [b|] eqn:Hb; cbn [rbind];
      [| discriminate].
    apply float_of_int_nonneg in Ha; [| exact Hmf].
    apply float_of_int_neg in Hb.
    destruct Hb as [-> | (mb & eb & ->)]; [discriminate |].
    cbn [float_truediv]. intros [= <-]. apply negative_float_shared.
    destruct Ha as [-> | (ma & ea & ->)].
    + left. reflexivity.
    + exact (SFdiv_finite_sign false true ma mb ea eb).
  - intros Hn' Hmf'.
    assert (Ha : exists a, float_of_int most_files = Ok a).
    { destruct most_files as [|q|q]; [eexists; reflexivity | | lia].
      destruct (float_of_int_pos q) as (m & e & ->); [lia | eauto]. }
    destruct Ha as [a ->]. cbn [rbind].
    rewrite Hh. cbn [rbind getitem]. rewrite Hn. cbn [rbind getitem].
    destruct (float_of_int_neg_small p) as (m & e & ->); [lia |].
    cbn [rbind float_truediv]. eauto.
Qed.

(** ** [main] *)

(** X17.  [main] never gets to classify a log: the parser stores the
    positional argument as the attribute ['darshanlogs'] and [main] reads
    ['darshan_logs'], so once the arguments parse it raises
    [AttributeError], whatever the arguments are. *)
Theorem main_raises_AttributeError :
  forall (cli : Cli) (env : Env) (argv : list string),
    run (main cli env argv) =
    match parse_args cli argv with
    | Ok _ =>
        (Raise (OtherError
                  "AttributeError: 'Namespace' object has no attribute 'darshan_logs'"),
         [])
    | Raise e => (Raise e, [])
    end.
Proof.
  intros cli env argv. unfold run, main, bind at 1, lift at 1.
  destruct (parse_args cli argv) as [parsed|e]; reflexivity.
Qed.

Lemma expand_globs_loop (cli : Cli) (logs : list string) :
  forall acc,
    fold_left
      (fun darshan_logs darshan_log =>
         if contains_star darshan_log
         then darshan_logs ++ glob_glob cli darshan_log
         else darshan_logs ++ [darshan_log])
      logs acc =
    acc ++ flat_map (fun darshan_log =>
                       if contains_star darshan_log
                       then glob_glob cli darshan_log
                       else [darshan_log]) logs.
Proof.
  induction logs as [|l logs IH]; intros acc; simpl.
  - rewrite app_nil_r. reflexivity.
  - rewrite IH. destruct (contains_star l); rewrite <- app_assoc; reflexivity.
Qed.

(** X18.  Glob expansion keeps the order of the arguments: each argument
    with a ['*'] is replaced, in place, by what [glob.glob] returns for it
    (by nothing when nothing matches), every other argument is kept, and a
    list without any ['*'] is returned as it is. *)
Theorem expand_globs_in_place :
  forall (cli : Cli) (logs : list string),
    expand_globs cli logs =
    flat_map (fun darshan_log =>
                if contains_star darshan_log
                then glob_glob cli darshan_log
                else [darshan_log]) logs /\
    ((forall l, In l logs -> contains_star l = false) ->
     expand_globs cli logs = logs).
Proof.
  intros cli logs. unfold expand_globs. rewrite expand_globs_loop.
  split; [reflexivity |]. intros Hnone. simpl.
  induction logs as [|l logs IH]; simpl; [reflexivity |].
  rewrite (Hnone l (or_introl eq_refl)). simpl. f_equal.
  apply IH. intros l' Hin. apply Hnone. right. exact Hin.
Qed.

(** *** The serial loop *)

Lemma appends_ret {A : Type} (a : A) : appends_warnings (ret a).
Proof. intros ws. unfold ret. simpl. rewrite app_nil_r. reflexivity. Qed.

Lemma appends_lift {A : Type} (r : result A) : appends_warnings (lift r).
Proof. intros ws. unfold lift. simpl. rewrite app_nil_r. reflexivity. Qed.

Lemma appends_warn (msg : string) : appends_warnings (warn msg).
Proof. intros ws. reflexivity. Qed.

Lemma appends_bind {A B : Type} (m : Py A) (f : A -> Py B) :
  appends_warnings m -> (forall a, appends_warnings (f a)) ->
  appends_warnings (bind m f).
Proof.
  intros Hm Hf ws. unfold bind. rewrite (Hm ws).
  destruct (m []) as [[a|e] w]; simpl.
  - rewrite (Hf a (ws ++ w)), (Hf a w). simpl. rewrite app_assoc. reflexivity.
  - reflexivity.
Qed.

Lemma appends_try_except {A : Type} (body handler : Py A) :
  appends_warnings body -> appends_warnings handler ->
  appends_warnings (try_except body handler).
Proof.
  intros Hb Hh ws. unfold try_except. rewrite (Hb ws).
  destruct (body []) as [[a|e] w]; simpl; [reflexivity |].
  destruct e; try reflexivity;
    rewrite (Hh (ws ++ w)), (Hh w); simpl; rewrite app_assoc; reflexivity.
Qed.

Lemma appends_classify_darshanlog (env : Env) (darshan_file : string) :
  appends_warnings (classify_darshanlog env darshan_file).
Proof.
  unfold classify_darshanlog, classify_log, start_time_step, application_step.
  repeat first
    [ apply appends_bind
    | apply appends_try_except
    | apply appends_lift
    | apply appends_ret
    | apply appends_warn
    | intros [[? ?] ?]
    | intro ].
Qed.

(** A call with warnings already emitted behaves as a call from none. *)
Lemma classify_darshanlog_from (env : Env) (darshan_file : string)
    (ws : list string) :
  classify_darshanlog env darshan_file ws =
  (fst (run (classify_darshanlog env darshan_file)),
   ws ++ snd (run (classify_darshanlog env darshan_file))).
Proof. apply appends_classify_darshanlog. Qed.

Lemma classify_serial_loop_app (env : Env) (a b : list string) :
  forall results ws,
    classify_serial_loop env (a ++ b) results ws =
    match classify_serial_loop env a results ws with
    | (Ok results', ws') => classify_serial_loop env b results' ws'
    | (Raise e, ws') => (Raise e, ws')
    end.
Proof.
  induction a as [|l a IH]; intros results ws; simpl; [reflexivity |].
  unfold bind.
  destruct (classify_darshanlog env l ws) as [[r|e] ws']; [apply IH |].
  reflexivity.
Qed.

(** X19.  The serial loop has no handler: when the classification of one
    log raises, the batch raises the same exception, the results of the
    logs before it are lost and the logs after it are not classified. *)
Theorem classify_serial_aborts :
  forall (env : Env) (before after : list string) (bad : string)
         (results : list ClassResult) (ws w : list string) (e : PyError),
    run (classify_serial env before) = (Ok results, ws) ->
    run (classify_darshanlog env bad) = (Raise e, w) ->
    run (classify_serial env (before ++ bad :: after)) = (Raise e, ws ++ w).
Proof.
  intros env before after bad results ws w e Hbefore Hbad.
  unfold run, classify_serial in *. rewrite classify_serial_loop_app, Hbefore.
  simpl. unfold bind. rewrite classify_darshanlog_from.
  unfold run. rewrite Hbad. reflexivity.
Qed.

Lemma classify_serial_loop_results (env : Env) (logs : list string) :
  forall acc ws results ws',
    classify_serial_loop env logs acc ws = (Ok results, ws') ->
    exists new,
      results = acc ++ new /\
      Forall2 (fun l r => exists w, run (classify_darshanlog env l) = (Ok r, w))
              logs new.
Proof.
  induction logs as [|l logs IH]; intros acc ws results ws'; simpl.
  - unfold ret. intros [= <- <-]. exists []. rewrite app_nil_r. auto.
  - unfold bind. rewrite classify_darshanlog_from.
    destruct (run (classify_darshanlog env l)) as [[r|e] w] eqn:Hl; simpl;
      [| discriminate].
    intros H. destruct (IH _ _ _ _ H) as (new & -> & Hall).
    exists (r :: new). rewrite <- app_assoc. split; [reflexivity |].
    constructor; [eauto | exact Hall].
Qed.

Lemma classify_darshanlog_log_file (env : Env) (darshan_file : string)
    (r : ClassResult) (w : list string) :
  run (classify_darshanlog env darshan_file) = (Ok r, w) ->
  log_file r = Some (basename darshan_file).
Proof.
  unfold run, classify_darshanlog, bind at 1, lift at 1.
  destruct (darshan_parser_base env darshan_file) as [darshan_log|e];
    [| discriminate].
  intros H. destruct (classify_log_returns _ _ _ _ _ H)
    as (f & label & fs & mf & fpp & _ & _ & _ & _ & _ & _ & _ & _ & _ & Hlf).
  exact Hlf.
Qed.

(** X20.  A serial batch that returns gives one record per log, in the
    order of the logs: each record is what classifying its log alone
    returns, and its [log_file] is the basename of that log. *)
Theorem classify_serial_in_order :
  forall (env : Env) (darshan_logs : list string)
         (results : list ClassResult) (ws : list string),
    run (classify_serial env darshan_logs) = (Ok results, ws) ->
    Forall2 (fun l r => exists w, run (classify_darshanlog env l) = (Ok r, w))
            darshan_logs results /\
    List.length results = List.length darshan_logs /\
    map log_file results = map (fun l => Some (basename l)) darshan_logs.
Proof.
  intros env darshan_logs results ws Hrun.
  destruct (classify_serial_loop_results env darshan_logs [] [] results ws Hrun)
    as (new & -> & Hall).
  clear Hrun. cbn [app]. split; [exact Hall |].
  induction Hall as [|l r logs new' [w Hl] Hall IH]; simpl; [auto |].
  destruct IH as [Hlen Hmap]. split; [congruence |].
  rewrite (classify_darshanlog_log_file env l r w Hl), Hmap. reflexivity.
Qed.

(** ** Instances of the further properties *)

(** X1 on the sample mount table listed both ways. *)
Lemma identify_fs_order_independent_witness :
  _identify_fs_from_path "/scratch1/a" ["/"; "/scratch1"] =
  _identify_fs_from_path "/scratch1/a" ["/scratch1"; "/"] /\
  fs_key "/scratch1/a" ["/"; "/scratch1"] =
  fs_key "/scratch1/a" ["/scratch1"; "/"].
Proof.
  apply (identify_fs_order_independent "/scratch1/a"
           ["/"; "/scratch1"] ["/scratch1"; "/"]).
  intros m. simpl. tauto.
Defined.


(** X3: a later rule that also matches is not consulted. *)
Lemma convert_first_match_wins_witness :
  convert {| mount_regex := [(scratch1_pattern, "scratch1");
                             (project_pattern, "mira-fs1");
                             (project_pattern, "late")] |}
          "/projects/data" = "mira-fs1".
Proof.
  apply (convert_first_match_wins
           {| mount_regex := [(scratch1_pattern, "scratch1");
                              (project_pattern, "mira-fs1");
                              (project_pattern, "late")] |}
           [(scratch1_pattern, "scratch1")] [(project_pattern, "late")]
           project_pattern "mira-fs1" "/projects/data" eq_refl).
  - intros q name [[= <- <-] | []]. reflexivity.
  - reflexivity.
  - discriminate.
Defined.

(** X5 on the sample configuration. *)
Lemma MountToFsName_init_rules_witness :
  exists converter,
    MountToFsName_init sample_env = Ok converter /\
    rule_entries converter =
    [("/global/cscratch", "cscratch"); ("/scratch1", "scratch1");
     ("/project", "mira-fs1")].
Proof.
  eexists. split; [reflexivity |].
  refine (proj1 (MountToFsName_init_rules sample_env _ _ eq_refl)).
  simpl. repeat constructor; simpl; intuition discriminate.
Defined.

(** X6 on the sample configuration. *)
Lemma convert_project_mount_witness :
  exists converter,
    MountToFsName_init sample_env = Ok converter /\
    convert converter "/projects/data" = "mira-fs1".
Proof.
  eexists. split; [reflexivity |].
  apply (convert_project_mount sample_env _ "/projects/data" eq_refl).
  - simpl. intuition discriminate.
  - simpl. intros rex_str m [<- | [<- | []]] [= <-]; reflexivity.
  - reflexivity.
Defined.

(** X7 on two APIs: POSIX, the second, has the larger totals. *)
Lemma get_biggest_api_dominant_witness :
  exists r w,
    is_first_max (fun kv => api_read (snd kv))
      (biggest_api_table two_api_counters) r /\
    is_first_max (fun kv => api_write (snd kv))
      (biggest_api_table two_api_counters) w /\
    fst r = "POSIX" /\ api_read (snd r) = 500 /\
    fst w = "POSIX" /\ api_write (snd w) = 100.
Proof.
  destruct (get_biggest_api_dominant
              (sample_log two_api_counters (header_of (Some 4) None))
              two_api_counters
              {| biggest_read_api := Some "POSIX";
                 biggest_read_api_bytes := Some 500;
                 biggest_read_api_files := Some 1;
                 biggest_write_api := Some "POSIX";
                 biggest_write_api_bytes := Some 100;
                 biggest_write_api_files := Some 2;
                 biggest_read_fs := None; biggest_read_fs_bytes := None;
                 biggest_write_fs := None; biggest_write_fs_bytes := None |}
              eq_refl eq_refl)
    as (r & w & Hr & Hw & _ & _ & H1 & H2 & _ & H3 & H4 & _).
  exists r, w. simpl in H1, H2, H3, H4.
  repeat split; try assumption; congruence.
Defined.

(** X9 on records that moved no byte. *)
Lemma idle_counters_unknown_witness :
  get_biggest_api (sample_log idle_counters (header_of (Some 4) None)) =
  Ok {| biggest_read_api := Some "POSIX";
        biggest_read_api_bytes := Some 0;
        biggest_read_api_files := Some 0;
        biggest_write_api := Some "POSIX";
        biggest_write_api_bytes := Some 0;
        biggest_write_api_files := Some 0;
        biggest_read_fs := None; biggest_read_fs_bytes := None;
        biggest_write_fs := None; biggest_write_fs_bytes := None |}.
Proof.
  refine (proj1 (idle_counters_unknown
                   (sample_log idle_counters (header_of (Some 4) None))
                   "POSIX" [("/scratch1/a", one_record 0 0)]
                   [("STDIO", [("<STDOUT>",
                                [("0", {| BYTES_READ := None;
                                          BYTES_WRITTEN := None |})])])]
                   eq_refl _)).
  repeat constructor.
Defined.

(** X10 on two APIs: ['/scratch1'] holds the largest totals. *)
Lemma get_biggest_fs_dominant_witness :
  exists t r w,
    biggest_fs_table two_api_counters (dict_keys sample_mounts)
      "POSIX" "POSIX" = Ok t /\
    is_first_max (fun kv => fs_read (snd kv)) t r /\
    is_first_max (fun kv => fs_write (snd kv)) t w /\
    fst r = "/scratch1" /\ fst w = "/scratch1".
Proof.
  destruct (get_biggest_fs_dominant
              (sample_log two_api_counters (header_of (Some 4) None))
              two_api_counters
              {| biggest_read_api := None; biggest_read_api_bytes := None;
                 biggest_read_api_files := None;
                 biggest_write_api := None; biggest_write_api_bytes := None;
                 biggest_write_api_files := None;
                 biggest_read_fs := Some "/scratch1";
                 biggest_read_fs_bytes := Some 1000;
                 biggest_write_fs := Some "/scratch1";
                 biggest_write_fs_bytes := Some 200 |}
              eq_refl eq_refl)
    as (ra & wa & m & t & r & w & Hapis & Hm & Ht & Hr & Hw & H1 & _ & H2 & _).
  injection Hapis as <- <-. injection Hm as <-.
  exists t, r, w. simpl in H1, H2.
  repeat split; try assumption; congruence.
Defined.

(** X11 on the one-file trace. *)
Lemma get_biggest_fs_key_is_mount_or_unknown_witness :
  exists m,
    mounts (sample_log one_file_counters (header_of (Some 4) None)) = Some m /\
    ("/scratch1" = "_unknown" \/ In "/scratch1" (dict_keys m)).
Proof.
  apply (get_biggest_fs_key_is_mount_or_unknown
           (sample_log one_file_counters (header_of (Some 4) None))
           _ "/scratch1" eq_refl).
  left. reflexivity.
Defined.

(** X12 on a trace that holds the two synthetic rows only. *)
Lemma only_synthetic_rows_raise_witness :
  get_biggest_fs
    (sample_log synthetic_only_counters
       (header_of (Some 4) (Some 1500000000))) =
    Raise (ValueError "max() arg is an empty sequence") /\
  run (classify_log sample_env sample_file
         (sample_log synthetic_only_counters
            (header_of (Some 4) (Some 1500000000)))) =
    (Raise (ValueError "max() arg is an empty sequence"), []).
Proof.
  apply (only_synthetic_rows_raise sample_env sample_file
           (sample_log synthetic_only_counters
              (header_of (Some 4) (Some 1500000000)))
           synthetic_only_counters sample_mounts eq_refl eq_refl eq_refl).
  repeat constructor.
Defined.

(** X13 on the sample path. *)
Lemma basename_of_join_witness :
  basename ("/logs" ++ "/" ++ "app.darshan") = "app.darshan".
Proof.
  exact (proj1 (basename_of_join "/logs" "app.darshan" eq_refl)).
Defined.

(** X14 on the sample trace. *)
Lemma classified_record_witness :
  exists label fs access h ts d digest,
    read_or_write sample_result = Some label /\
    In label ["read"; "write"; "unknown"] /\
    shared_or_fpp sample_result = Some access /\
    In access ["fpp"; "shared"; "unknown"] /\
    file_system sample_result = Some fs /\
    compute_system sample_result =
      Some (dict_get_default FSNAME_TO_SYSTEM fs "unknown") /\
    In (dict_get_default FSNAME_TO_SYSTEM fs "unknown")
       ["mira"; "edison"; "cori"; "unknown"] /\
    header sample_trace = Some h /\ start_time h = Some ts /\
    result_start_time sample_result = Some ts /\
    strftime_date sample_env ts = Ok d /\ date sample_result = Some d /\
    log_file sample_result = Some (basename sample_file) /\
    has_slash (basename sample_file) = false /\
    md5_hexdigest sample_env sample_file = Ok digest /\
    md5 sample_result = Some digest.
Proof.
  exact (classified_record sample_env sample_file sample_trace
           sample_result [] eq_refl).
Defined.

(** X15 on the sample trace, whose header names ['/bin/app']. *)
Lemma classified_application_or_warning_witness :
  exists h,
    header sample_trace = Some h /\
    match exe h with
    | Some (path :: _) =>
        application sample_result = Some (basename path) /\
        @nil string = []
    | _ =>
        application sample_result = None /\
        @nil string = [exe_warning sample_file]
    end.
Proof.
  exact (classified_application_or_warning sample_env sample_file
           sample_trace sample_result [] eq_refl).
Defined.

(** X16 with four files and [nprocs = -4]. *)
Lemma negative_nprocs_shared_witness :
  (forall x,
      files_per_proc 4
        (sample_log fpp_counters (header_of (Some (-4)) None)) = Ok x ->
      shared_or_fpp_label x = "shared") /\
  (- 2 ^ 53 < -4 -> 4 < 2 ^ 53 ->
   exists x,
     files_per_proc 4
       (sample_log fpp_counters (header_of (Some (-4)) None)) = Ok x).
Proof.
  apply (negative_nprocs_shared 4
           (sample_log fpp_counters (header_of (Some (-4)) None))
           (header_of (Some (-4)) None) (-4) eq_refl eq_refl);
    lia.
Defined.

(** X19: the second of three logs is not a Darshan log. *)
Lemma classify_serial_aborts_witness :
  run (classify_serial (reader_env sample_file sample_trace)
         ([sample_file] ++ "/logs/broken.darshan" :: [sample_file])) =
  (Raise (OtherError "not a darshan log"), [] ++ []).
Proof.
  apply (classify_serial_aborts (reader_env sample_file sample_trace)
           [sample_file] [sample_file] "/logs/broken.darshan"
           [sample_result] [] [] (OtherError "not a darshan log")
           eq_refl eq_refl).
Defined.

(** X20: the sample log classified twice. *)
Lemma classify_serial_in_order_witness :
  Forall2 (fun l r =>
             exists w,
               run (classify_darshanlog
                      (reader_env sample_file sample_trace) l) = (Ok r, w))
          [sample_file; sample_file] [sample_result; sample_result] /\
  List.length [sample_result; sample_result] =
  List.length [sample_file; sample_file] /\
  map log_file [sample_result; sample_result] =
  map (fun l => Some (basename l)) [sample_file; sample_file].
Proof.
  exact (classify_serial_in_order (reader_env sample_file sample_trace)
           [sample_file; sample_file] [sample_result; sample_result] []
           eq_refl).
Defined.

(** X21 on the one-file trace, read and written through POSIX. *)
Lemma fs_totals_twice_when_same_api_witness :
  fs_bytes fs_read [("/scratch1", {| fs_write := 14; fs_read := 10 |})]
    "/scratch1" =
  2 * spec_fs_bytes record_read one_file_counters (dict_keys sample_mounts)
        "POSIX" "POSIX" "/scratch1" /\
  fs_bytes fs_write [("/scratch1", {| fs_write := 14; fs_read := 10 |})]
    "/scratch1" =
  2 * spec_fs_bytes record_written one_file_counters (dict_keys sample_mounts)
        "POSIX" "POSIX" "/scratch1".
Proof.
  exact (proj1 (fs_totals_twice_when_same_api one_file_counters
                  (dict_keys sample_mounts) "POSIX" "POSIX" "/scratch1"
                  [("/scratch1", {| fs_write := 14; fs_read := 10 |})]
                  eq_refl)
               eq_refl).
Defined.

(** X22 with four files and four processes. *)
Lemma files_per_proc_total_witness :
  exists x, files_per_proc 4 sample_trace = Ok x.
Proof.
  apply (files_per_proc_total 4 sample_trace
           (header_of (Some 4) (Some 1500000000)) 4 eq_refl eq_refl); lia.
Defined.

(** X23 on the sample trace: 4000 bytes written, none read. *)
Lemma classified_write_iff_witness :
  exists api_features r w,
    get_biggest_api sample_trace = Ok api_features /\
    biggest_read_api_bytes api_features = Some r /\
    biggest_write_api_bytes api_features = Some w /\
    0 <= r /\ 0 <= w /\
    (read_or_write sample_result = Some "read" <-> r > 10 * w) /\
    (read_or_write sample_result = Some "write" <-> w > 10 * r) /\
    (read_or_write sample_result = Some "unknown" <->
     ~ r > 10 * w /\ ~ w > 10 * r).
Proof.
  apply (classified_write_iff sample_env sample_file sample_trace
           fpp_counters sample_result [] eq_refl).
  - unfold counters_nonneg, record_nonneg. simpl.
    repeat (once constructor); unfold record_read, record_written; simpl; lia.
  - reflexivity.
Defined.
